(** * mesa-backend: the request handlers of [app.py]

    A shallow embedding of the two Flask routes of [src/app.py]
    ([search_suggestions] and [get_place_details]) together with the
    Python builtins they rely on, and the properties of the
    specification that concern them.

    The builtins [int], [float] and [lower] are written out on ASCII
    strings, where every interpreter agrees, and left open elsewhere:
    the handler that uses them is stated for every interpreter.

    The handlers talk to collaborators that live in the [search]
    package (the three providers, the orchestrator and the durable
    [PlaceStorage]).  Those are taken as parameters: every operation of
    a collaborator is a function on an abstract world [W] that either
    returns a value or raises.  The handlers themselves are written in a
    small state-and-exception monad whose state is the world plus the
    trace of what the handler did (log records and collaborator
    calls). *)

From Stdlib Require Import Strings.String Strings.Ascii Lists.List.
From Stdlib Require Import ZArith NArith Bool Lia.
Import ListNotations.

Open Scope string_scope.
Open Scope list_scope.
Open Scope Z_scope.

Set Implicit Arguments.

(** ** Python builtins on strings *)

Module Py.

Definition is_digit (c : ascii) : bool :=
  let n := nat_of_ascii c in (48 <=? n)%nat && (n <=? 57)%nat.

Definition digit_val (c : ascii) : N := N.of_nat (nat_of_ascii c - 48).

(** The blanks that [int] and [float] strip from the ends of an ASCII
    literal: TAB, LF, VT, FF, CR and the space. *)
Definition is_space (c : ascii) : bool :=
  let n := nat_of_ascii c in
  ((9 <=? n)%nat && (n <=? 13)%nat) || (n =? 32)%nat.

Definition is_upper (c : ascii) : bool :=
  let n := nat_of_ascii c in (65 <=? n)%nat && (n <=? 90)%nat.

Definition lower_char (c : ascii) : ascii :=
  if is_upper c then ascii_of_nat (nat_of_ascii c + 32) else c.

(** [str.lower()] on a string of ASCII characters. *)
Fixpoint ascii_lower (s : string) : string :=
  match s with
  | EmptyString => EmptyString
  | String c r => String (lower_char c) (ascii_lower r)
  end.

(** A string all of whose characters are ASCII: every byte is below
    128, whichever way the characters beyond ASCII are encoded. *)
Fixpoint is_ascii (s : string) : bool :=
  match s with
  | EmptyString => true
  | String c r => (nat_of_ascii c <? 128)%nat && is_ascii r
  end.

Fixpoint lstrip (l : list ascii) : list ascii :=
  match l with
  | c :: r => if is_space c then lstrip r else l
  | [] => []
  end.

(** The literal without the blanks at its two ends. *)
Definition strip (l : list ascii) : list ascii :=
  rev (lstrip (rev (lstrip l))).

(** Digits separated by single underscores, as [int] accepts them:
    [prev] tells whether the previous character was a digit, so that
    an underscore is only read between two digits. *)
Fixpoint digits_us (l : list ascii) (acc : N) (prev : bool) : option N :=
  match l with
  | [] => if prev then Some acc else None
  | c :: r =>
      if is_digit c then digits_us r (acc * 10 + digit_val c)%N true
      else if Ascii.eqb c "_" then
             if prev then digits_us r acc false else None
           else None
  end.

Definition split_sign (l : list ascii) : bool * list ascii :=
  match l with
  | c :: r =>
      if Ascii.eqb c "-" then (true, r)
      else if Ascii.eqb c "+" then (false, r)
      else (false, l)
  | [] => (false, [])
  end.

(** [int(s)] for an ASCII string [s], base 10, without any limit on
    the number of digits; [None] stands for the [ValueError]. *)
Definition ascii_int (s : string) : option Z :=
  let '(neg, body) := split_sign (strip (list_ascii_of_string s)) in
  match digits_us body 0%N false with
  | Some n => Some (if neg then - Z.of_N n else Z.of_N n)
  | None => None
  end.

(** The value of a Python float as far as the handlers need it: they
    parse it and hand it on, and never compute with it.  A finite value
    is kept as the decimal that was read, [(-1)^neg * mant * 10^exp10];
    the rounding to binary64 is not part of the model. *)
Inductive pyfloat : Type :=
| Fnan
| Finf (neg : bool)
| Ffinite (neg : bool) (mant : N) (exp10 : Z).

(** Underscores of a float literal: allowed only between two digits,
    and removed before the number is read. *)
Fixpoint drop_underscores (l : list ascii) (prev_digit prev_us : bool)
  : option (list ascii) :=
  match l with
  | [] => if prev_us then None else Some []
  | c :: r =>
      if Ascii.eqb c "_" then
        if prev_digit then drop_underscores r false true else None
      else if prev_us && negb (is_digit c) then None
           else option_map (cons c) (drop_underscores r (is_digit c) false)
  end.

(** Reads a run of digits: the accumulated value, how many digits were
    read, and what follows. *)
Fixpoint take_digits (l : list ascii) (acc : N) (cnt : nat)
  : N * nat * list ascii :=
  match l with
  | c :: r =>
      if is_digit c then take_digits r (acc * 10 + digit_val c)%N (S cnt)
      else (acc, cnt, l)
  | [] => (acc, cnt, [])
  end.

Definition is_e (c : ascii) : bool := Ascii.eqb c "e" || Ascii.eqb c "E".

(** The exponent part: nothing, or [e], an optional sign and at least
    one digit, up to the end of the text. *)
Definition exponent (l : list ascii) : option Z :=
  match l with
  | [] => Some 0
  | c :: r =>
      if is_e c then
        let '(neg, ds) := split_sign r in
        match take_digits ds 0%N 0%nat with
        | (_, O, _) => None
        | (e, S _, []) => Some (if neg then - Z.of_N e else Z.of_N e)
        | (_, S _, _ :: _) => None
        end
      else None
  end.

Definition decimal (neg : bool) (l : list ascii) : option pyfloat :=
  let '(i, ni, r1) := take_digits l 0%N 0%nat in
  let '(m, nf, r2) :=
    match r1 with
    | c :: r => if Ascii.eqb c "." then take_digits r i 0%nat else (i, 0%nat, r1)
    | [] => (i, 0%nat, r1)
    end in
  match (ni + nf)%nat with
  | O => None
  | S _ =>
      match exponent r2 with
      | Some e => Some (Ffinite neg m (e - Z.of_nat nf))
      | None => None
      end
  end.

(** [float(s)] for an ASCII string [s]; [None] stands for the
    [ValueError]. *)
Definition ascii_float (s : string) : option pyfloat :=
  match drop_underscores (strip (list_ascii_of_string s)) false false with
  | None => None
  | Some l =>
      let '(neg, body) := split_sign l in
      let word := ascii_lower (string_of_list_ascii body) in
      if String.eqb word "inf" || String.eqb word "infinity" then Some (Finf neg)
      else if String.eqb word "nan" then Some Fnan
      else decimal neg body
  end.

(** What the builtins do outside the part that is written out above.
    On a string with a character beyond ASCII, the digits and blanks
    that [int] and [float] accept and the letters that [lower] folds
    are those of the interpreter's Unicode tables; on a long literal,
    [int] may refuse by its limit on the number of digits, which is a
    setting of the interpreter and never applies to 640 digits or
    fewer.  These parts are left open: the handlers are stated for
    every interpreter. *)
Record interpreter : Type := mkInterpreter {
  other_int : string -> option Z;
  other_float : string -> option pyfloat;
  other_lower : string -> string
}.

(** The length up to which [int] is free of the digit limit. *)
Definition plain_length : nat := 640.

(** [int(s)] for a string [s]; [None] stands for the [ValueError]. *)
Definition int (py : interpreter) (s : string) : option Z :=
  if is_ascii s && (String.length s <=? plain_length)%nat then ascii_int s
  else other_int py s.

(** [float(s)] for a string [s]; [None] stands for the [ValueError]. *)
Definition float (py : interpreter) (s : string) : option pyfloat :=
  if is_ascii s then ascii_float s else other_float py s.

(** [s.lower()] *)
Definition lower (py : interpreter) (s : string) : string :=
  if is_ascii s then ascii_lower s else other_lower py s.

End Py.

(** ** Data model *)

(** A value of the open [additional_data] mapping. *)
Inductive Prim : Type :=
| PStr (s : string)
| PNum (x : Py.pyfloat)
| PBool (b : bool).

(** The attributes of a [Place] object that the handlers read.  A
    place is a value: the handlers assign to none of its attributes,
    and a collaborator that is handed one is taken not to change it. *)
Record Place : Type := mkPlace {
  place_id : string;
  name : string;
  address : string;
  latitude : option Py.pyfloat;
  longitude : option Py.pyfloat;
  source : string;
  additional_data : list (string * Prim)
}.

(** Exceptions.  [ValueError_int] and [ValueError_float] are what
    [int] and [float] raise on a literal they cannot read; the others
    come out of the collaborators. *)
Inductive ProviderErrorKind : Type := unavailable | bad_request.

Inductive exn : Type :=
| ValueError_int (literal : string)
| ValueError_float (literal : string)
| ProviderError (kind : ProviderErrorKind) (msg : string)
| NotFoundError (msg : string)
| OtherError (cls msg : string).

(** The text of an ["error"] entry: a literal of the source, or
    [str(e)] for a caught exception [e]. *)
Inductive ErrorText : Type :=
| Literal (s : string)
| Str (e : exn).

(** One entry of the ["suggestions"] list. *)
Record Suggestion : Type := mkSuggestion {
  sg_id : string;
  sg_name : string;
  sg_address : string;
  sg_source : string;
  sg_latitude : option Py.pyfloat;
  sg_longitude : option Py.pyfloat
}.

(** The ["place"] entry of a details response. *)
Record PlaceJson : Type := mkPlaceJson {
  pj_id : string;
  pj_name : string;
  pj_address : string;
  pj_latitude : option Py.pyfloat;
  pj_longitude : option Py.pyfloat;
  pj_source : string;
  pj_additional_data : list (string * Prim)
}.

(** What [jsonify] is given.  Serialisation itself is taken to
    succeed on these bodies. *)
Inductive Body : Type :=
| ErrorBody (e : ErrorText)
| SuggestionsBody (l : list Suggestion)
| PlaceBody (p : PlaceJson)
| StatusBody (s : string).

(** A Flask return value: the body and the status code (200 when the
    source gives none). *)
Record Response : Type := mkResponse { body : Body; status : Z }.

(** ** Trace: log records and collaborator calls *)

Inductive Level : Type := DEBUG | INFO | WARNING | ERROR.

(** One constructor per [logger] call of the source, carrying the
    values its f-string interpolates. *)
Inductive LogMsg : Type :=
| SearchRequest (query : option string) (provider : string) (limit : Z)
                (lat lon : option Py.pyfloat)
| NoQueryParameter
| UsingLocal
| UsingMapbox
| UsingGoogle
| UsingAll
| InvalidProvider (provider : string)
| FoundResults (n : nat)
| ErrorDuringSearch (e : exn)
| SavedToWhoosh (place_name : string)
| SavedToFirestore (firestore_id : string)
| ErrorSavingFirestore (e : exn)
| ErrorSavingPlace (e : exn)
| ErrorGettingDetails (e : exn).

Inductive ProviderName : Type := Local | Mapbox | Google.

(** The calls a handler makes on its collaborators, with the arguments
    it passes.  An optional argument the handler leaves out is [None]. *)
Inductive Call : Type :=
| CallSearch (p : ProviderName) (query : string) (limit : Z)
             (lat lon : option Py.pyfloat)
| CallOrchestratorSearch (query : string) (limit : Z)
                         (lat lon : option Py.pyfloat)
| CallGetPlaceDetails (p : ProviderName) (id : string)
| CallSavePlace (pl : Place)
| CallPlaceStorage
| CallStorageSavePlace (pl : Place).

Inductive Event : Type :=
| Log (lvl : Level) (m : LogMsg)
| Invoke (c : Call).

Definition is_invoke (e : Event) : bool :=
  match e with Invoke _ => true | Log _ _ => false end.

Definition is_log (e : Event) : bool :=
  match e with Log _ _ => true | Invoke _ => false end.

(** The collaborator calls of a trace, in order. *)
Fixpoint calls (tr : list Event) : list Call :=
  match tr with
  | [] => []
  | Invoke c :: r => c :: calls r
  | Log _ _ :: r => calls r
  end.

(** ** Collaborators *)

(** An operation of a collaborator: from a world, a value or an
    exception, and the world after. *)
Definition Op (W A : Type) : Type := W -> (exn + A) * W.

(** The provider interface, as the handlers and the orchestrator use
    it.  [save_place] is only ever called on the local provider. *)
Record SearchProvider (W : Type) : Type := mkProvider {
  search : string -> Z -> option Py.pyfloat -> option Py.pyfloat -> Op W (list Place);
  provider_get_place_details : string -> Op W Place;
  save_place : Place -> Op W unit
}.

(** The module-level objects of [app.py].  A provider whose
    construction failed is [None]. *)
Record App (W : Type) : Type := mkApp {
  whoosh_provider : option (SearchProvider W);
  mapbox_provider : option (SearchProvider W);
  google_places_provider : option (SearchProvider W);
  search_orchestrator :
    string -> Z -> option Py.pyfloat -> option Py.pyfloat -> Op W (list Place);
  PlaceStorage : Op W unit;
  storage_save_place : Place -> Op W string
}.

(** ** The handler monad *)

Definition State (W : Type) : Type := (W * list Event)%type.

Definition M (W A : Type) : Type := State W -> (exn + A) * State W.

Definition ret {W A} (a : A) : M W A := fun st => (inr a, st).

Definition raise {W A} (e : exn) : M W A := fun st => (inl e, st).

Definition bind {W A B} (m : M W A) (k : A -> M W B) : M W B :=
  fun st =>
    match m st with
    | (inr a, st') => k a st'
    | (inl e, st') => (inl e, st')
    end.

(** [try: m except Exception as e: h e] *)
Definition try_except {W A} (m : M W A) (h : exn -> M W A) : M W A :=
  fun st =>
    match m st with
    | (inr a, st') => (inr a, st')
    | (inl e, st') => h e st'
    end.

Definition log {W} (lvl : Level) (m : LogMsg) : M W unit :=
  fun st => (inr tt, (fst st, snd st ++ [Log lvl m])).

(** Calling a collaborator: the call is recorded, the operation runs
    on the world. *)
Definition invoke {W A} (c : Call) (op : Op W A) : M W A :=
  fun st =>
    let '(r, w') := op (fst st) in (r, (w', snd st ++ [Invoke c])).

Declare Scope handler_scope.
Delimit Scope handler_scope with handler.
Notation "x <- m ;; k" := (bind m (fun x => k))
  (at level 100, m at next level, right associativity) : handler_scope.
Notation "m ;;; k" := (bind m (fun _ => k))
  (at level 100, right associativity) : handler_scope.
Open Scope handler_scope.

(** ** Flask glue *)

(** [request.args]: the query parameters in order. *)
Definition Args : Type := list (string * string).

(** [request.args.get(key)]: the first value of the key. *)
Fixpoint args_get (key : string) (args : Args) : option string :=
  match args with
  | [] => None
  | (k, v) :: r => if String.eqb k key then Some v else args_get key r
  end.

Definition jsonify (b : Body) : Response := mkResponse b 200.
Definition jsonify_status (b : Body) (code : Z) : Response := mkResponse b code.

Definition error (s : string) (code : Z) : Response :=
  jsonify_status (ErrorBody (Literal s)) code.

(** [int(request.args.get('limit', 5))] *)
Definition int_arg {W} (py : Py.interpreter) (v : option string)
    (default : Z) : M W Z :=
  match v with
  | None => ret default
  | Some s =>
      match Py.int py s with
      | Some n => ret n
      | None => raise (ValueError_int s)
      end
  end.

(** [x = float(x)] under [if x is not None] *)
Definition float_arg {W} (py : Py.interpreter) (v : option string)
  : M W (option Py.pyfloat) :=
  match v with
  | None => ret None
  | Some s =>
      match Py.float py s with
      | Some x => ret (Some x)
      | None => raise (ValueError_float s)
      end
  end.

Definition suggestion_of (result : Place) : Suggestion :=
  mkSuggestion (place_id result) (name result) (address result)
               (source result) (latitude result) (longitude result).

Definition place_json (place : Place) : PlaceJson :=
  mkPlaceJson (place_id place) (name place) (address place)
              (latitude place) (longitude place) (source place)
              (additional_data place).

(** Python truth of an optional string: [None] and [""] are false. *)
Definition truthy (v : option string) : bool :=
  match v with
  | None => false
  | Some s => negb (String.eqb s "")
  end.

(** The value of a parameter known to be present. *)
Definition value (v : option string) : string :=
  match v with Some s => s | None => "" end.

(** ** The handlers of [app.py] *)

Section Handlers.

Context {W : Type} (py : Py.interpreter) (app : App W).

(** Lines 101-120: the projection of the results. *)
Definition suggestions_response (results : list Place) : M W Response :=
  log DEBUG (FoundResults (length results)) ;;;
  ret (jsonify (SuggestionsBody (map suggestion_of results))).

(** Lines 76-99: the dispatch on [provider]. *)
Definition dispatch_search (provider query : string) (limit : Z)
    (latitude longitude : option Py.pyfloat) : M W Response :=
  if String.eqb provider "local" then
    log DEBUG UsingLocal ;;;
    match whoosh_provider app with
    | None => ret (error "Local search provider is not available" 503)
    | Some p =>
        results <- invoke (CallSearch Local query limit None None)
                          (search p query limit None None) ;;
        suggestions_response results
    end
  else if String.eqb provider "mapbox" then
    log DEBUG UsingMapbox ;;;
    match mapbox_provider app with
    | None => ret (error "Mapbox search provider is not available" 503)
    | Some p =>
        results <- invoke (CallSearch Mapbox query limit latitude longitude)
                          (search p query limit latitude longitude) ;;
        suggestions_response results
    end
  else if String.eqb provider "google" then
    log DEBUG UsingGoogle ;;;
    match google_places_provider app with
    | None => ret (error "Google Places search provider is not available" 503)
    | Some p =>
        results <- invoke (CallSearch Google query limit latitude longitude)
                          (search p query limit latitude longitude) ;;
        suggestions_response results
    end
  else if String.eqb provider "all" then
    log DEBUG UsingAll ;;;
    results <- invoke (CallOrchestratorSearch query limit latitude longitude)
                      (search_orchestrator app query limit latitude longitude) ;;
    suggestions_response results
  else
    log WARNING (InvalidProvider provider) ;;;
    ret (error "Invalid provider. Must be one of: local, mapbox, google, all" 400).

(** Lines 54-99, the body of the [try]. *)
Definition search_suggestions_body (args : Args) : M W Response :=
  let query := args_get "query" args in
  n <- int_arg py (args_get "limit" args) 5 ;;
  let limit := Z.min n 5 in
  let provider :=
    Py.lower py (match args_get "provider" args with
                 | Some p => p
                 | None => "all"
                 end) in
  let latitude := args_get "latitude" args in
  let longitude := args_get "longitude" args in
  latitude <- float_arg py latitude ;;
  longitude <- float_arg py longitude ;;
  log DEBUG (SearchRequest query provider limit latitude longitude) ;;;
  if negb (truthy query) then
    log WARNING NoQueryParameter ;;;
    ret (error "Query parameter is required" 400)
  else
    dispatch_search provider (value query) limit latitude longitude.

(** [GET /search/suggestions] *)
Definition search_suggestions (args : Args) : M W Response :=
  try_except (search_suggestions_body args)
    (fun e =>
       log ERROR (ErrorDuringSearch e) ;;;
       ret (jsonify_status (ErrorBody (Str e)) 500)).

(** Lines 165-178: the two writes, the second nested in the [try] of
    the first. *)
Definition save_to_local_database (p : SearchProvider W) (place : Place)
  : M W unit :=
  try_except
    (invoke (CallSavePlace place) (save_place p place) ;;;
     log INFO (SavedToWhoosh (name place)) ;;;
     try_except
       (invoke CallPlaceStorage (PlaceStorage app) ;;;
        firestore_id <- invoke (CallStorageSavePlace place)
                               (storage_save_place app place) ;;
        log INFO (SavedToFirestore firestore_id))
       (fun e => log ERROR (ErrorSavingFirestore e)))
    (fun e => log ERROR (ErrorSavingPlace e)).

(** Lines 163-193: what follows the resolution of [place]. *)
Definition save_and_return (source : string) (place : Place) : M W Response :=
  (if negb (String.eqb source "local") then
     match whoosh_provider app with
     | Some p => save_to_local_database p place
     | None => ret tt
     end
   else ret tt) ;;;
  ret (jsonify (PlaceBody (place_json place))).

(** Lines 140-161: the dispatch on [source]. *)
Definition resolve_place (place_id source : string) : M W Response :=
  if String.eqb source "local" then
    match whoosh_provider app with
    | None => ret (error "Local search provider is not available" 503)
    | Some p =>
        results <- invoke (CallSearch Local place_id 1 None None)
                          (search p place_id 1 None None) ;;
        match results with
        | [] => ret (error "Place not found" 404)
        | place :: _ => save_and_return source place
        end
    end
  else if String.eqb source "mapbox" then
    match mapbox_provider app with
    | None => ret (error "Mapbox search provider is not available" 503)
    | Some p =>
        place <- invoke (CallGetPlaceDetails Mapbox place_id)
                        (provider_get_place_details p place_id) ;;
        save_and_return source place
    end
  else if String.eqb source "google" then
    match google_places_provider app with
    | None => ret (error "Google Places search provider is not available" 503)
    | Some p =>
        place <- invoke (CallGetPlaceDetails Google place_id)
                        (provider_get_place_details p place_id) ;;
        save_and_return source place
    end
  else
    ret (error "Invalid source. Must be one of: local, mapbox, google" 400).

(** [GET /search/place-details] *)
Definition get_place_details (args : Args) : M W Response :=
  try_except
    (let place_id := args_get "place_id" args in
     let source := args_get "source" args in
     if negb (truthy place_id) || negb (truthy source) then
       ret (error "place_id and source parameters are required" 400)
     else
       resolve_place (value place_id) (value source))
    (fun e =>
       log ERROR (ErrorGettingDetails e) ;;;
       ret (jsonify_status (ErrorBody (Str e)) 500)).

(** [GET /health] *)
Definition health_check : M W Response :=
  ret (jsonify_status (StatusBody "ok") 200).

End Handlers.

(** ** The orchestrator *)

Section Orchestrator.

Context {W : Type}.

(** Modelled from the spec: step 1-2 of [SearchOrchestrator.search]
    (the [search] package is not under src/).  An absent provider is
    skipped; a present one is asked with the same arguments, and a
    [ProviderError] it raises counts as no results.  The spec says
    nothing of other exceptions: they are left to propagate. *)
Definition contribution (p : option (SearchProvider W)) (query : string)
    (limit : Z) (latitude longitude : option Py.pyfloat) : Op W (list Place) :=
  fun w =>
    match p with
    | None => (inr [], w)
    | Some p =>
        match search p query limit latitude longitude w with
        | (inl (ProviderError _ _), w') => (inr [], w')
        | other => other
        end
    end.

(** Identity of a place: the pair of [source] and [place_id]. *)
Definition same_place (a b : Place) : bool :=
  String.eqb (source a) (source b) && String.eqb (place_id a) (place_id b).

(** Modelled from the spec: step 4, deduplication by
    [(source, place_id)], the first occurrence is the one kept. *)
Fixpoint dedup (l : list Place) : list Place :=
  match l with
  | [] => []
  | p :: r => p :: filter (fun q => negb (same_place p q)) (dedup r)
  end.

(** Modelled from the spec: [SearchOrchestrator.search], steps 1-6:
    the providers in the order local, map vendor, places vendor; their
    results concatenated in that order, deduplicated, and cut to
    [limit].  The world is threaded through the providers in the same
    order, which is the order the spec fixes for the merge. *)
Definition SearchOrchestrator_search
    (whoosh mapbox google : option (SearchProvider W))
    (query : string) (limit : Z) (latitude longitude : option Py.pyfloat)
  : Op W (list Place) :=
  fun w =>
    match contribution whoosh query limit latitude longitude w with
    | (inl e, w1) => (inl e, w1)
    | (inr l1, w1) =>
        match contribution mapbox query limit latitude longitude w1 with
        | (inl e, w2) => (inl e, w2)
        | (inr l2, w2) =>
            match contribution google query limit latitude longitude w2 with
            | (inl e, w3) => (inl e, w3)
            | (inr l3, w3) =>
                (inr (firstn (Z.to_nat limit) (dedup (l1 ++ l2 ++ l3))), w3)
            end
        end
    end.

(** Lines 45-49 of [app.py]: the orchestrator is built from the three
    provider slots. *)
Definition make_app (whoosh mapbox google : option (SearchProvider W))
    (storage : Op W unit) (storage_save : Place -> Op W string) : App W :=
  mkApp whoosh mapbox google
        (SearchOrchestrator_search whoosh mapbox google)
        storage storage_save.

End Orchestrator.

(** ** A small concrete world

    Used to run the handlers on concrete requests. *)

Module Demo.

(** An interpreter that reads ASCII only: it refuses every number with
    a character beyond ASCII or longer than [Py.plain_length], and
    leaves such a string as it is when asked for its lower case.  The
    sample requests below are ASCII and short, so none of this is
    ever consulted on them. *)
Definition python : Py.interpreter :=
  Py.mkInterpreter (fun _ => None) (fun _ => None) (fun s => s).

Record World : Type := mkWorld {
  index : list Place;
  firestore : list (string * Place)
}.

Fixpoint contains (needle hay : string) : bool :=
  String.prefix needle hay
  || match hay with
     | EmptyString => false
     | String _ r => contains needle r
     end.

Definition matches (query : string) (p : Place) : bool :=
  contains query (place_id p) || contains query (name p)
  || contains query (address p).

Definition upsert (p : Place) (l : list Place) : list Place :=
  p :: filter (fun q => negb (same_place p q)) l.

Definition find_id (id : string) (l : list Place) : option Place :=
  find (fun p => String.eqb (place_id p) id) l.

(** Modelled from the spec: the Local-Index provider
    ([WhooshSearchProvider], not under src/), section 4.2: a text
    search that returns at most [limit] places of the index, a lookup
    by id that fails with [NotFoundError], and [save_place] as an
    upsert keyed by [(source, place_id)].  The text of a place is its
    id, name and address. *)
Definition local_index : SearchProvider World :=
  mkProvider
    (fun query limit _ _ w =>
       (inr (firstn (Z.to_nat limit) (filter (matches query) (index w))), w))
    (fun id w =>
       match find_id id (index w) with
       | Some p => (inr p, w)
       | None => (inl (NotFoundError id), w)
       end)
    (fun p w => (inr tt, mkWorld (upsert p (index w)) (firestore w))).

(** A local index whose write path is out of order. *)
Definition read_only_index : SearchProvider World :=
  mkProvider (search local_index) (provider_get_place_details local_index)
    (fun _ w => (inl (OtherError "LockError" "index is locked"), w)).

(** A vendor serving a fixed catalogue; it has no persistence. *)
Definition vendor (catalogue : list Place) : SearchProvider World :=
  mkProvider
    (fun query limit _ _ w =>
       (inr (firstn (Z.to_nat limit) (filter (matches query) catalogue)), w))
    (fun id w =>
       match find_id id catalogue with
       | Some p => (inr p, w)
       | None => (inl (NotFoundError id), w)
       end)
    (fun _ w => (inl (OtherError "AttributeError" "save_place"), w)).

(** A vendor that is down. *)
Definition vendor_down : SearchProvider World :=
  mkProvider
    (fun _ _ _ _ w => (inl (ProviderError unavailable "timeout"), w))
    (fun _ w => (inl (ProviderError unavailable "timeout"), w))
    (fun _ w => (inl (OtherError "AttributeError" "save_place"), w)).

Definition storage_ok : Op World unit := fun w => (inr tt, w).

Definition storage_save (p : Place) : Op World string :=
  fun w =>
    let id := String.append "fs-" (place_id p) in
    (inr id, mkWorld (index w) ((id, p) :: firestore w)).

Definition storage_no_credentials : Op World unit :=
  fun w => (inl (OtherError "DefaultCredentialsError" "no credentials"), w).

Definition storage_save_fails (p : Place) : Op World string :=
  fun w => (inl (OtherError "ServiceUnavailable" "503 from the store"), w).

Definition lat1 : option Py.pyfloat := Some (Py.Ffinite false 407128 (-4)).
Definition lon1 : option Py.pyfloat := Some (Py.Ffinite true 740060 (-4)).

Definition m1 : Place :=
  mkPlace "mbx.1" "Coffee Lab" "1 Main St" lat1 lon1 "mapbox" [].
Definition m2 : Place :=
  mkPlace "mbx.2" "Coffee Dock" "2 Pier Rd" lat1 lon1 "mapbox" [].
Definition g1 : Place :=
  mkPlace "g-1" "Coffee Lab" "1 Main St" lat1 lon1 "google"
          [("rating", PStr "4.5")].
Definition g2 : Place :=
  mkPlace "g-2" "Coffee Corner" "9 High St" None None "google" [].
Definition g3 : Place :=
  mkPlace "g-3" "Coffee Yard" "3 Low St" None None "google" [].

Definition mapbox_catalogue : list Place := [m1; m2].
Definition google_catalogue : list Place := [g1; g2; g3].

Definition empty_world : World := mkWorld [] [].

(** Everything up and running. *)
Definition app : App World :=
  make_app (Some local_index) (Some (vendor mapbox_catalogue))
           (Some (vendor google_catalogue)) storage_ok storage_save.

(** No provider could be constructed. *)
Definition app_bare : App World :=
  make_app None None None storage_ok storage_save.

(** The index cannot be written. *)
Definition app_read_only : App World :=
  make_app (Some read_only_index) (Some (vendor mapbox_catalogue))
           (Some (vendor google_catalogue)) storage_ok storage_save.

(** The durable store rejects the write. *)
Definition app_store_down : App World :=
  make_app (Some local_index) (Some (vendor mapbox_catalogue))
           (Some (vendor google_catalogue)) storage_ok storage_save_fails.

End Demo.

(** Running a handler on a request: it starts from a world and an
    empty trace. *)
Definition run {W A} (m : M W A) (w : W) : (exn + A) * State W := m (w, []).

Definition result_of {W A} (x : (exn + A) * State W) : exn + A := fst x.
Definition world_of {W A} (x : (exn + A) * State W) : W := fst (snd x).
Definition trace_of {W A} (x : (exn + A) * State W) : list Event := snd (snd x).

(** ** Well-formed numeric parameters *)

(** An absent parameter, or one that [float] reads. *)
Definition float_ok (py : Py.interpreter) (v : option string) : bool :=
  match v with
  | None => true
  | Some s => match Py.float py s with Some _ => true | None => false end
  end.

(** An absent [limit], or one that [int] reads. *)
Definition int_ok (py : Py.interpreter) (v : option string) : bool :=
  match v with
  | None => true
  | Some s => match Py.int py s with Some _ => true | None => false end
  end.

(** The limit the caller asked for, 5 when it gave none. *)
Definition requested_limit (py : Py.interpreter) (args : Args) : option Z :=
  match args_get "limit" args with
  | None => Some 5
  | Some s => Py.int py s
  end.

(** The provider the caller named, [all] when it gave none. *)
Definition requested_provider (py : Py.interpreter) (args : Args) : string :=
  Py.lower py (match args_get "provider" args with
            | Some p => p
            | None => "all"
            end).

(** The first conversion of lines 55-66 that raises, if any: [limit],
    then [latitude], then [longitude]. *)
Definition conversion_error (py : Py.interpreter) (args : Args) : option exn :=
  if negb (int_ok py (args_get "limit" args)) then
    Some (ValueError_int (value (args_get "limit" args)))
  else if negb (float_ok py (args_get "latitude" args)) then
    Some (ValueError_float (value (args_get "latitude" args)))
  else if negb (float_ok py (args_get "longitude" args)) then
    Some (ValueError_float (value (args_get "longitude" args)))
  else None.

(** The provider slot that [get_place_details] consults for a
    non-local [source] (lines 148-157). *)
Definition remote_provider {W} (app : App W) (source : string)
  : option (ProviderName * SearchProvider W) :=
  if String.eqb source "mapbox" then
    option_map (pair Mapbox) (mapbox_provider app)
  else if String.eqb source "google" then
    option_map (pair Google) (google_places_provider app)
  else None.

(** The provider slot that a direct request consults, for either
    handler. *)
Definition named_provider {W} (app : App W) (provider : string)
  : option (SearchProvider W) :=
  if String.eqb provider "local" then whoosh_provider app
  else if String.eqb provider "mapbox" then mapbox_provider app
  else if String.eqb provider "google" then google_places_provider app
  else None.

Definition is_direct (provider : string) : bool :=
  String.eqb provider "local" || String.eqb provider "mapbox"
  || String.eqb provider "google".

(** The 503 text of each direct provider. *)
Definition unavailable_text (provider : string) : string :=
  if String.eqb provider "local" then "Local search provider is not available"
  else if String.eqb provider "mapbox" then "Mapbox search provider is not available"
  else "Google Places search provider is not available".

(** Lines 172-173 as one operation: the store is constructed, then
    asked to save. *)
Definition durable_write {W} (app : App W) (place : Place) : Op W string :=
  fun w =>
    match PlaceStorage app w with
    | (inl e, w') => (inl e, w')
    | (inr _, w') => storage_save_place app place w'
    end.

(** A provider slot whose [search], when the provider is there, either
    returns or raises a [ProviderError]: nothing the orchestrator would
    let through. *)
Definition quiet {W} (p : option (SearchProvider W)) : Prop :=
  forall sp, p = Some sp ->
  forall query limit latitude longitude w,
    match fst (search sp query limit latitude longitude w) with
    | inl (ProviderError _ _) => True
    | inl _ => False
    | inr _ => True
    end.

(** The [except] clause of [search_suggestions] (lines 122-126). *)
Definition search_failed {W : Type} (e : exn) : M W Response :=
  log ERROR (ErrorDuringSearch e) ;;;
  ret (jsonify_status (ErrorBody (Str e)) 500).

(** ** Sample requests and their runs *)

Module Sample.

Definition stocked : Demo.World := Demo.mkWorld [Demo.m1; Demo.g2] [].

Definition near_new_york : Args :=
  [("query", "Coffee"); ("provider", "local");
   ("latitude", "40.7128"); ("longitude", "-74.0060")].

Definition near_sydney : Args :=
  [("query", "Coffee"); ("provider", "local");
   ("latitude", "-33.9"); ("longitude", "1.5e2")].

Definition empty_query : Args := [("query", ""); ("latitude", "40.7")].

Definition bad_latitude : Args := [("query", "Coffee"); ("latitude", "abc")].

Definition coffee_3 : Args := [("query", "Coffee"); ("limit", "3")].

Definition details_mbx1 : Args := [("place_id", "mbx.1"); ("source", "mapbox")].

Definition details_mbx2 : Args := [("place_id", "mbx.2"); ("source", "mapbox")].

Definition details_g1 : Args := [("place_id", "g-1"); ("source", "google")].

Definition local_missing : Args := [("source", "local"); ("place_id", "mbx.404")].

Definition local_main : Args := [("place_id", "Main"); ("source", "local")].

(** A suggestion request with a latitude that is no number. *)
Definition run_bad_latitude :=
  run (search_suggestions Demo.python Demo.app bad_latitude) Demo.empty_world.

(** A suggestion request with an empty query. *)
Definition run_empty_query :=
  run (search_suggestions Demo.python Demo.app empty_query) Demo.empty_world.

(** Three suggestions asked of all providers. *)
Definition run_coffee_3 :=
  run (search_suggestions Demo.python Demo.app coffee_3) Demo.empty_world.

(** Details from the map vendor while the index cannot be written. *)
Definition run_read_only :=
  run (get_place_details Demo.app_read_only details_mbx1) Demo.empty_world.

(** Details from a vendor while the durable store rejects the write. *)
Definition run_store_down (args : Args) :=
  run (get_place_details Demo.app_store_down args) Demo.empty_world.

(** Details from the map vendor, everything up. *)
Definition run_details_mbx1 :=
  run (get_place_details Demo.app details_mbx1) Demo.empty_world.

(** Details from the local index for an id it does not hold. *)
Definition run_local_missing :=
  run (get_place_details Demo.app local_missing) (Demo.mkWorld [Demo.m1] []).

End Sample.

(** ** More vocabulary for the handlers *)

(** The value a numeric parameter converts to, when it does. *)
Definition float_value (py : Py.interpreter) (v : option string)
  : option Py.pyfloat :=
  match v with
  | Some s => Py.float py s
  | None => None
  end.

(** The provider behind each direct name. *)
Definition provider_name (provider : string) : ProviderName :=
  if String.eqb provider "local" then Local
  else if String.eqb provider "mapbox" then Mapbox
  else Google.

(** The location a direct search hands on: the vendors get the
    parsed latitude and longitude, the local provider gets none
    (lines 81, 86 and 91). *)
Definition location_for (provider : string) (x : option Py.pyfloat)
  : option Py.pyfloat :=
  if String.eqb provider "local" then None else x.

(** The limit of a search call; no limit for the other calls. *)
Definition call_limit (c : Call) : option Z :=
  match c with
  | CallSearch _ _ limit _ _ => Some limit
  | CallOrchestratorSearch _ limit _ _ => Some limit
  | _ => None
  end.

(** The calls of lines 167-173: the writes of a details request. *)
Definition is_write (c : Call) : bool :=
  match c with
  | CallSavePlace _ | CallPlaceStorage | CallStorageSavePlace _ => true
  | _ => false
  end.

Definition is_suggestions (b : Body) : bool :=
  match b with SuggestionsBody _ => true | _ => false end.

Definition is_place (b : Body) : bool :=
  match b with PlaceBody _ => true | _ => false end.

(** Status codes of the two routes. *)
Definition suggestion_status (code : Z) : bool :=
  (code =? 200) || (code =? 400) || (code =? 500) || (code =? 503).

Definition details_status (code : Z) : bool :=
  (code =? 200) || (code =? 400) || (code =? 404) || (code =? 500)
  || (code =? 503).

(** ** More fixtures *)

Module Fixture.

(** Only the vendors could be constructed. *)
Definition app_vendors_only : App Demo.World :=
  make_app None (Some (Demo.vendor Demo.mapbox_catalogue))
           (Some (Demo.vendor Demo.google_catalogue))
           Demo.storage_ok Demo.storage_save.

(** The map vendor is down. *)
Definition app_mapbox_down : App Demo.World :=
  make_app (Some Demo.local_index) (Some Demo.vendor_down)
           (Some (Demo.vendor Demo.google_catalogue))
           Demo.storage_ok Demo.storage_save.

(** An orchestrator that raises. *)
Definition app_orchestrator_broken : App Demo.World :=
  mkApp (Some Demo.local_index) (Some (Demo.vendor Demo.mapbox_catalogue))
        (Some (Demo.vendor Demo.google_catalogue))
        (fun _ _ _ _ w => (inl (OtherError "RuntimeError" "pool is closed"), w))
        Demo.storage_ok Demo.storage_save.

Definition bad_limit : Args := [("limit", "five"); ("provider", "nowhere")].

Definition bad_provider : Args := [("query", "Coffee"); ("provider", "Bing")].

Definition mapbox_near : Args :=
  [("query", "Coffee"); ("provider", "Mapbox"); ("limit", "9");
   ("latitude", "40.7128"); ("longitude", "-74.0060")].

Definition mapbox_near_upper : Args :=
  [("query", "Coffee"); ("provider", "MAPBOX"); ("limit", "9");
   ("latitude", "40.7128"); ("longitude", "-74.0060")].

Definition coffee_all_3 : Args :=
  [("query", "Coffee"); ("limit", "3"); ("longitude", "1.5")].

Definition no_source : Args := [("place_id", "mbx.1")].

Definition upper_source : Args := [("place_id", "mbx.1"); ("source", "LOCAL")].

Definition details_unknown : Args := [("place_id", "mbx.999"); ("source", "mapbox")].

Definition details_local_mbx1 : Args := [("place_id", "mbx.1"); ("source", "local")].

End Fixture.

(** A local index whose search is out of order. *)
Definition broken_index : SearchProvider Demo.World :=
  mkProvider
    (fun _ _ _ _ w => (inl (OtherError "IndexError" "index is corrupt"), w))
    (provider_get_place_details Demo.local_index)
    (save_place Demo.local_index).

Definition app_broken_index : App Demo.World :=
  make_app (Some broken_index) (Some (Demo.vendor Demo.mapbox_catalogue))
           (Some (Demo.vendor Demo.google_catalogue))
           Demo.storage_ok Demo.storage_save.

(** ** Start-up: lines 17-49 of [app.py]

    What the module does when it is imported: it settles the index
    directory, constructs the three providers, each in a [try] of its
    own, and hands the three slots to the orchestrator.  The classes
    and the operating system are parameters, as the collaborators of
    the handlers are. *)

Inductive InitMsg : Type :=
| UsingIndexDirectory (dir : string)
| ProviderInitialized (p : ProviderName)
| ProviderInitFailed (p : ProviderName) (e : exn).

Inductive InitCall : Type :=
| CallGettempdir
| CallMakedirs (dir : string)
| CallWhooshSearchProvider (index_dir : string)
| CallMapboxSearchProvider (access_token : option string)
| CallGooglePlacesSearchProvider (api_key : option string)
| CallSearchOrchestrator (whoosh mapbox google : bool).

Inductive InitEvent : Type :=
| InitLog (lvl : Level) (m : InitMsg)
| InitInvoke (c : InitCall).

Fixpoint init_calls (tr : list InitEvent) : list InitCall :=
  match tr with
  | [] => []
  | InitInvoke c :: r => c :: init_calls r
  | InitLog _ _ :: r => init_calls r
  end.

(** The search operation of an orchestrator object. *)
Definition OrchestratorSearch (W : Type) : Type :=
  string -> Z -> option Py.pyfloat -> option Py.pyfloat -> Op W (list Place).

(** What the module imports and asks of the operating system.
    [os_getenv] is the environment after [load_dotenv()]. *)
Record Platform (W : Type) : Type := mkPlatform {
  os_getenv : string -> option string;
  tempfile_gettempdir : Op W string;
  os_makedirs : string -> Op W unit;
  new_WhooshSearchProvider : string -> Op W (SearchProvider W);
  new_MapboxSearchProvider : option string -> Op W (SearchProvider W);
  new_GooglePlacesSearchProvider : option string -> Op W (SearchProvider W);
  new_SearchOrchestrator :
    option (SearchProvider W) -> option (SearchProvider W) ->
    option (SearchProvider W) -> Op W (OrchestratorSearch W);
  new_PlaceStorage : Op W unit;
  PlaceStorage_save_place : Place -> Op W string
}.

Definition ends_with_slash (s : string) : bool :=
  match rev (list_ascii_of_string s) with
  | c :: _ => Ascii.eqb c "/"
  | [] => false
  end.

(** [os.path.join(a, b)] on a POSIX system. *)
Definition path_join (a b : string) : string :=
  if String.prefix "/" b then b
  else if String.eqb a "" || ends_with_slash a then String.append a b
  else String.append a (String.append "/" b).

(** A provider slot after its [try]: the object, or [None]. *)
Definition slot {A : Type} (r : exn + A) : option A :=
  match r with
  | inr a => Some a
  | inl _ => None
  end.

Definition is_some {A : Type} (o : option A) : bool :=
  match o with Some _ => true | None => false end.

Section Startup.

Context {W : Type} (pf : Platform W).

Definition InitState : Type := (W * list InitEvent)%type.

(** Line 18: the index directory is [WHOOSH_INDEX_DIR] when the
    environment has it, and [whoosh_index] under the temporary
    directory otherwise. *)
Definition index_directory (tmp : string) : string :=
  match os_getenv pf "WHOOSH_INDEX_DIR" with
  | Some dir => dir
  | None => path_join tmp "whoosh_index"
  end.

(** One of the three blocks of lines 23-42: the constructor runs, its
    success or its exception is logged, and the slot is set. *)
Definition try_construct (pn : ProviderName) (c : InitCall)
    (constructor : Op W (SearchProvider W)) (st : InitState)
  : option (SearchProvider W) * InitState :=
  match constructor (fst st) with
  | (inr p, w') =>
      (Some p, (w', snd st ++ [InitInvoke c;
                               InitLog INFO (ProviderInitialized pn)]))
  | (inl e, w') =>
      (None, (w', snd st ++ [InitInvoke c;
                             InitLog ERROR (ProviderInitFailed pn e)]))
  end.

(** Lines 17-49.  An exception of [gettempdir], of [makedirs] or of
    the orchestrator's constructor is not caught: the import fails. *)
Definition startup (w : W) : (exn + App W) * InitState :=
  match tempfile_gettempdir pf w with
  | (inl e, w0) => (inl e, (w0, [InitInvoke CallGettempdir]))
  | (inr tmp, w0) =>
      let whoosh_index_dir := index_directory tmp in
      match os_makedirs pf whoosh_index_dir w0 with
      | (inl e, w1) =>
          (inl e, (w1, [InitInvoke CallGettempdir;
                        InitInvoke (CallMakedirs whoosh_index_dir)]))
      | (inr _, w1) =>
          let st1 := (w1, [InitInvoke CallGettempdir;
                           InitInvoke (CallMakedirs whoosh_index_dir);
                           InitLog INFO (UsingIndexDirectory whoosh_index_dir)]) in
          let '(whoosh, st2) :=
            try_construct Local (CallWhooshSearchProvider whoosh_index_dir)
              (new_WhooshSearchProvider pf whoosh_index_dir) st1 in
          let '(mapbox, st3) :=
            try_construct Mapbox
              (CallMapboxSearchProvider (os_getenv pf "MAPBOX_ACCESS_TOKEN"))
              (new_MapboxSearchProvider pf (os_getenv pf "MAPBOX_ACCESS_TOKEN"))
              st2 in
          let '(google, st4) :=
            try_construct Google
              (CallGooglePlacesSearchProvider (os_getenv pf "GOOGLE_PLACES_API_KEY"))
              (new_GooglePlacesSearchProvider pf
                 (os_getenv pf "GOOGLE_PLACES_API_KEY"))
              st3 in
          let c := CallSearchOrchestrator (is_some whoosh) (is_some mapbox)
                                          (is_some google) in
          match new_SearchOrchestrator pf whoosh mapbox google (fst st4) with
          | (inl e, w5) => (inl e, (w5, snd st4 ++ [InitInvoke c]))
          | (inr orchestrator, w5) =>
              (inr (mkApp whoosh mapbox google orchestrator
                          (new_PlaceStorage pf) (PlaceStorage_save_place pf)),
               (w5, snd st4 ++ [InitInvoke c]))
          end
      end
  end.

End Startup.

(** A platform for the sample world: the map vendor needs its token,
    the places vendor its key. *)
Module Boot.

Definition env (vars : list (string * string)) (key : string) : option string :=
  args_get key vars.

Definition needs_credential (catalogue : list Place) (what : string)
    (credential : option string) : Op Demo.World (SearchProvider Demo.World) :=
  fun w =>
    match credential with
    | Some _ => (inr (Demo.vendor catalogue), w)
    | None => (inl (OtherError "ValueError" what), w)
    end.

Definition platform (vars : list (string * string)) : Platform Demo.World :=
  mkPlatform (env vars)
    (fun w => (inr "/tmp", w))
    (fun _ w => (inr tt, w))
    (fun _ w => (inr Demo.local_index, w))
    (needs_credential Demo.mapbox_catalogue "access token is required")
    (needs_credential Demo.google_catalogue "API key is required")
    (fun whoosh mapbox google w =>
       (inr (SearchOrchestrator_search whoosh mapbox google), w))
    Demo.storage_ok Demo.storage_save.

(** Only the key of the places vendor is configured. *)
Definition only_google : list (string * string) :=
  [("GOOGLE_PLACES_API_KEY", "k-123")].

End Boot.

(** The constructor call of lines 31 and 38 behind a vendor's name. *)
Definition vendor_constructor {W} (pf : Platform W) (provider : string)
  : Op W (SearchProvider W) :=
  if String.eqb provider "mapbox" then
    new_MapboxSearchProvider pf (os_getenv pf "MAPBOX_ACCESS_TOKEN")
  else
    new_GooglePlacesSearchProvider pf (os_getenv pf "GOOGLE_PLACES_API_KEY").

(** A platform on which the index directory cannot be created. *)
Definition platform_read_only : Platform Demo.World :=
  mkPlatform (Boot.env [])
    (fun w => (inr "/tmp", w))
    (fun dir w => (inl (OtherError "PermissionError" dir), w))
    (fun _ w => (inr Demo.local_index, w))
    (Boot.needs_credential Demo.mapbox_catalogue "access token is required")
    (Boot.needs_credential Demo.google_catalogue "API key is required")
    (fun whoosh mapbox google w =>
       (inr (SearchOrchestrator_search whoosh mapbox google), w))
    Demo.storage_ok Demo.storage_save.

(** The app that start-up builds when only the places vendor has its
    key. *)
Definition app_only_google : App Demo.World :=
  mkApp (Some Demo.local_index) None
        (Some (Demo.vendor Demo.google_catalogue))
        (SearchOrchestrator_search (Some Demo.local_index) None
           (Some (Demo.vendor Demo.google_catalogue)))
        Demo.storage_ok Demo.storage_save.

Definition coffee_no_limit : Args := [("query", "Coffee"); ("provider", "google")].

Definition coffee_limit_50 : Args :=
  [("limit", "50"); ("query", "Coffee"); ("provider", "google")].

Unset Implicit Arguments.

(** ** Sanity checks of the builtins *)

Example int_100 (py : Py.interpreter) : Py.int py "100" = Some 100.
Proof. reflexivity. Qed.
Example int_neg : Py.int Demo.python " -1_000 " = Some (-1000). Proof. reflexivity. Qed.
Example int_bad : Py.int Demo.python "5.0" = None. Proof. reflexivity. Qed.
Example int_empty : Py.int Demo.python "" = None. Proof. reflexivity. Qed.
Example float_dec : Py.float Demo.python "40.7128" = Some (Py.Ffinite false 407128 (-4)).
Proof. reflexivity. Qed.
Example float_exp : Py.float Demo.python "-1.5e3" = Some (Py.Ffinite true 15 2).
Proof. reflexivity. Qed.
Example float_inf : Py.float Demo.python "-Infinity" = Some (Py.Finf true).
Proof. reflexivity. Qed.
Example float_bad : Py.float Demo.python "abc" = None. Proof. reflexivity. Qed.
Example float_dot : Py.float Demo.python "." = None. Proof. reflexivity. Qed.
Example float_us : Py.float Demo.python "1_0.5" = Some (Py.Ffinite false 105 (-1)).
Proof. reflexivity. Qed.
Example lower_ex : Py.lower Demo.python "MapBox" = "mapbox". Proof. reflexivity. Qed.

(** A file separator before the digit is not a blank: the literal is
    refused. *)
Example int_fs (py : Py.interpreter) :
  Py.int py (String (ascii_of_nat 28) "5") = None.
Proof. reflexivity. Qed.

Example float_fs (py : Py.interpreter) :
  Py.float py (String (ascii_of_nat 28) "5") = None.
Proof. reflexivity. Qed.

Example int_vt (py : Py.interpreter) :
  Py.int py (String (ascii_of_nat 11) "5") = Some 5.
Proof. reflexivity. Qed.

(** A character beyond ASCII hands the literal to the interpreter. *)
Lemma int_beyond_ascii (py : Py.interpreter) (s : string) :
  Py.is_ascii s = false -> Py.int py s = Py.other_int py s.
Proof. unfold Py.int. intros ->. reflexivity. Qed.

Lemma float_beyond_ascii (py : Py.interpreter) (s : string) :
  Py.is_ascii s = false -> Py.float py s = Py.other_float py s.
Proof. unfold Py.float. intros ->. reflexivity. Qed.


(** ** Sample runs *)

Example coffee_all :
  result_of (run (search_suggestions Demo.python Demo.app [("query", "Coffee")]) Demo.empty_world)
  = inr (jsonify (SuggestionsBody
                    (map suggestion_of [Demo.m1; Demo.m2; Demo.g1; Demo.g2; Demo.g3]))).
Proof. reflexivity. Qed.

Example coffee_limit_2 :
  result_of (run (search_suggestions Demo.python Demo.app
                    [("query", "Coffee"); ("limit", "2"); ("provider", "Google")])
                 Demo.empty_world)
  = inr (jsonify (SuggestionsBody (map suggestion_of [Demo.g1; Demo.g2]))).
Proof. reflexivity. Qed.

Example details_then_local :
  let r1 := run (get_place_details Demo.app
                   [("place_id", "mbx.1"); ("source", "mapbox")]) Demo.empty_world in
  result_of r1 = inr (jsonify (PlaceBody (place_json Demo.m1)))
  /\ calls (trace_of r1)
     = [CallGetPlaceDetails Mapbox "mbx.1"; CallSavePlace Demo.m1;
        CallPlaceStorage; CallStorageSavePlace Demo.m1]
  /\ result_of (run (get_place_details Demo.app
                       [("place_id", "mbx.1"); ("source", "local")]) (world_of r1))
     = inr (jsonify (PlaceBody (place_json Demo.m1))).
Proof. repeat split; reflexivity. Qed.

(** ** The handlers always answer *)

Section Answers.

Context {W : Type} (py : Py.interpreter) (app : App W).

(** No exception leaves [search_suggestions]: the outer [except]
    turns each into a response. *)
Lemma search_suggestions_answers (args : Args) (st : State W) :
  exists resp, result_of (search_suggestions py app args st) = inr resp.
Proof.
  unfold search_suggestions, try_except, result_of.
  destruct (search_suggestions_body py app args st) as [[e | resp] st'].
  - eexists. reflexivity.
  - exists resp. reflexivity.
Qed.

(** Nor does one leave [get_place_details]. *)
Lemma get_place_details_answers (args : Args) (st : State W) :
  exists resp, result_of (get_place_details app args st) = inr resp.
Proof.
  unfold get_place_details, try_except, result_of.
  match goal with
  | |- context [match ?m st with _ => _ end] =>
      destruct (m st) as [[e | resp] st']
  end.
  - eexists. reflexivity.
  - exists resp. reflexivity.
Qed.

(** The handler reads five parameters and nothing else of the
    request. *)
Lemma search_suggestions_reads (a1 a2 : Args) :
  args_get "query" a1 = args_get "query" a2 ->
  args_get "limit" a1 = args_get "limit" a2 ->
  args_get "provider" a1 = args_get "provider" a2 ->
  args_get "latitude" a1 = args_get "latitude" a2 ->
  args_get "longitude" a1 = args_get "longitude" a2 ->
  search_suggestions py app a1 = search_suggestions py app a2.
Proof.
  intros Hq Hl Hp Hla Hlo.
  unfold search_suggestions, search_suggestions_body.
  rewrite Hq, Hl, Hp, Hla, Hlo. reflexivity.
Qed.

End Answers.

(** C4. A suggestion request with [limit=100] behaves as the same
    request with [limit=5]: for a fixed query, provider and location
    the two runs give the same response, and also leave the same world
    and the same trace. *)
Theorem limit_100_behaves_as_limit_5 :
  forall (W : Type) (py : Py.interpreter) (app : App W) (a100 a5 : Args) (st : State W),
    args_get "limit" a100 = Some "100" ->
    args_get "limit" a5 = Some "5" ->
    args_get "query" a100 = args_get "query" a5 ->
    args_get "provider" a100 = args_get "provider" a5 ->
    args_get "latitude" a100 = args_get "latitude" a5 ->
    args_get "longitude" a100 = args_get "longitude" a5 ->
    search_suggestions py app a100 st = search_suggestions py app a5 st.
Proof.
  intros W py app a100 a5 st H100 H5 Hq Hp Hla Hlo.
  unfold search_suggestions, search_suggestions_body.
  rewrite H100, H5, Hq, Hp, Hla, Hlo.
  unfold int_arg. rewrite int_100.
  change (Py.int py "5") with (Some 5).
  reflexivity.
Qed.

Lemma limit_100_behaves_as_limit_5_witness :
  search_suggestions Demo.python Demo.app
    [("query", "Coffee"); ("limit", "100"); ("provider", "all")]
    (Demo.empty_world, [])
  = search_suggestions Demo.python Demo.app
      [("limit", "5"); ("provider", "all"); ("query", "Coffee")]
      (Demo.empty_world, []).
Proof.
  apply limit_100_behaves_as_limit_5; reflexivity.
Defined.

(** ** Reading the numeric parameters *)

Lemma float_arg_ok {W : Type} (py : Py.interpreter) (v : option string) :
  float_ok py v = true ->
  exists x, forall st : State W, float_arg py v st = (inr x, st).
Proof.
  unfold float_ok, float_arg. intros H.
  destruct v as [s|].
  - destruct (Py.float py s) as [x|]; [|discriminate].
    exists (Some x). reflexivity.
  - exists None. reflexivity.
Qed.

Lemma float_arg_bad {W : Type} (py : Py.interpreter) (s : string) (st : State W) :
  Py.float py s = None ->
  float_arg py (Some s) st = (inl (ValueError_float s), st).
Proof. unfold float_arg. intros ->. reflexivity. Qed.

(** Reading a parameter touches neither the world nor the trace. *)
Lemma float_arg_pure {W : Type} (py : Py.interpreter) (v : option string) :
  exists r, forall st : State W, float_arg py v st = (r, st).
Proof.
  unfold float_arg. destruct v as [s|].
  - destruct (Py.float py s); eexists; reflexivity.
  - eexists. reflexivity.
Qed.

Lemma int_arg_pure {W : Type} (py : Py.interpreter) (v : option string) (d : Z) :
  exists r, forall st : State W, int_arg py v d st = (r, st).
Proof.
  unfold int_arg. destruct v as [s|].
  - destruct (Py.int py s); eexists; reflexivity.
  - eexists. reflexivity.
Qed.

Lemma int_arg_limit {W : Type} (py : Py.interpreter) (args : Args) (n : Z) (st : State W) :
  requested_limit py args = Some n ->
  int_arg py (args_get "limit" args) 5 st = (inr n, st).
Proof.
  unfold requested_limit, int_arg.
  destruct (args_get "limit" args) as [s|].
  - intros ->. reflexivity.
  - intros [= <-]. reflexivity.
Qed.

Ltac read_floats W :=
  repeat match goal with
         | H : float_ok ?py ?v = true |- _ =>
             let x := fresh "x" in
             let Hx := fresh "Hx" in
             destruct (@float_arg_ok W py v H) as [x Hx]; clear H;
             rewrite ?Hx
         end.

Ltac same_outcome :=
  split; [reflexivity | split; [reflexivity | split; [reflexivity|]]].

Ltac only_search_calls :=
  let c := fresh "c" in
  let Hc := fresh "Hc" in
  intros c Hc; cbn in Hc;
  repeat (destruct Hc as [<- | Hc]; [eauto|]); contradiction.

(** C10. With [provider=local] the parsed latitude and longitude are
    not handed to the provider: two requests that differ only in their
    (parseable) latitude and longitude give the same response, leave
    the same world and make the same provider calls, and such a call
    carries no location. *)
Theorem local_search_ignores_location :
  forall (W : Type) (py : Py.interpreter) (app : App W) (a1 a2 : Args) (w : W),
    requested_provider py a1 = "local" ->
    requested_provider py a2 = "local" ->
    args_get "query" a1 = args_get "query" a2 ->
    args_get "limit" a1 = args_get "limit" a2 ->
    float_ok py (args_get "latitude" a1) = true ->
    float_ok py (args_get "longitude" a1) = true ->
    float_ok py (args_get "latitude" a2) = true ->
    float_ok py (args_get "longitude" a2) = true ->
    let r1 := run (search_suggestions py app a1) w in
    let r2 := run (search_suggestions py app a2) w in
    result_of r1 = result_of r2
    /\ world_of r1 = world_of r2
    /\ calls (trace_of r1) = calls (trace_of r2)
    /\ forall c, In c (calls (trace_of r1)) ->
                 exists q l, c = CallSearch Local q l None None.
Proof.
  intros W py app a1 a2 w Hp1 Hp2 Hq Hl Hla1 Hlo1 Hla2 Hlo2.
  unfold requested_provider in Hp1, Hp2.
  unfold run, search_suggestions, search_suggestions_body, try_except, bind.
  rewrite Hp1, Hp2, Hq, Hl.
  read_floats W.
  destruct (int_arg_pure (W := W) py (args_get "limit" a2) 5) as [[e | n] Hn];
    rewrite !Hn.
  { cbn. same_outcome; only_search_calls. }
  repeat progress (rewrite ?Hx, ?Hx0, ?Hx1, ?Hx2; cbn).
  destruct (truthy (args_get "query" a2)); cbn;
    [|same_outcome; only_search_calls].
  destruct (whoosh_provider app) as [lp|]; cbn;
    [|same_outcome; only_search_calls].
  unfold bind, invoke; cbn.
  destruct (search lp (value (args_get "query" a2)) (Z.min n 5) None None w)
    as [[e | results] w']; cbn;
    same_outcome; only_search_calls.
Qed.

Lemma local_search_ignores_location_witness :
  result_of (run (search_suggestions Demo.python Demo.app Sample.near_new_york) Sample.stocked)
  = result_of (run (search_suggestions Demo.python Demo.app Sample.near_sydney) Sample.stocked)
  /\ calls (trace_of (run (search_suggestions Demo.python Demo.app Sample.near_new_york)
                          Sample.stocked))
     = [CallSearch Local "Coffee" 5 None None].
Proof.
  pose proof (local_search_ignores_location Demo.World Demo.python Demo.app
                Sample.near_new_york Sample.near_sydney Sample.stocked
                eq_refl eq_refl eq_refl eq_refl eq_refl eq_refl eq_refl eq_refl)
    as [H _].
  split; [exact H | reflexivity].
Defined.

(** C2, as the code has it.  A suggestion request with a missing or
    empty query, or with a latitude or longitude that [float] cannot
    read, is turned down before anything is asked of a provider or of
    the orchestrator, and the world is left as it was.  When [limit],
    [latitude] and [longitude] all convert, the answer is the client
    error 400 "Query parameter is required"; when one of them does not,
    the answer is a 500 carrying the text of the first conversion that
    failed. *)
Theorem malformed_suggestion_request_rejected :
  forall (W : Type) (py : Py.interpreter) (app : App W) (args : Args) (w : W),
    truthy (args_get "query" args) = false
    \/ float_ok py (args_get "latitude" args) = false
    \/ float_ok py (args_get "longitude" args) = false ->
    let r := run (search_suggestions py app args) w in
    calls (trace_of r) = []
    /\ world_of r = w
    /\ result_of r
       = inr match conversion_error py args with
             | Some e => jsonify_status (ErrorBody (Str e)) 500
             | None => error "Query parameter is required" 400
             end.
Proof.
  intros W py app args w H.
  unfold run, search_suggestions, search_suggestions_body, try_except, bind,
    conversion_error, int_arg, float_arg, int_ok, float_ok in *.
  destruct (args_get "limit" args) as [sl|];
    [destruct (Py.int py sl) as [n|]; [|cbn; auto]|];
  (destruct (args_get "latitude" args) as [sa|];
    [destruct (Py.float py sa) as [la|]; [|cbn; auto]|]);
  (destruct (args_get "longitude" args) as [so|];
    [destruct (Py.float py so) as [lo|]; [|cbn; auto]|]);
  (destruct (truthy (args_get "query" args));
    [exfalso; intuition discriminate | cbn; auto]).
Qed.

Lemma malformed_suggestion_request_rejected_witness :
  calls (trace_of Sample.run_empty_query) = []
  /\ result_of Sample.run_empty_query
     = inr (error "Query parameter is required" 400).
Proof.
  destruct (malformed_suggestion_request_rejected Demo.World Demo.python Demo.app
              Sample.empty_query Demo.empty_world (or_introl eq_refl))
    as [Hc [_ Hr]].
  split; [exact Hc | exact Hr].
Defined.

(** C2 as stated fails: a well-formed query with the latitude [abc] is
    answered with status 500, not with a client error. *)
Lemma unparsable_latitude_is_server_error :
  truthy (args_get "query" Sample.bad_latitude) = true
  /\ Py.float Demo.python "abc" = None
  /\ calls (trace_of Sample.run_bad_latitude) = []
  /\ result_of Sample.run_bad_latitude
     = inr (mkResponse (ErrorBody (Str (ValueError_float "abc"))) 500).
Proof. repeat split; reflexivity. Qed.

(** ** The persistence writes *)

Section Persistence.

Context {W : Type} (app : App W).

(** What lines 165-178 do, case by case: the outcome is never an
    exception, and the trace tells which writes were tried. *)
Lemma save_to_local_database_run (lp : SearchProvider W) (place : Place)
    (w : W) (tr : list Event) :
  save_to_local_database app lp place (w, tr)
  = match save_place lp place w with
    | (inl e, w1) =>
        (inr tt, (w1, tr ++ [Invoke (CallSavePlace place);
                             Log ERROR (ErrorSavingPlace e)]))
    | (inr _, w1) =>
        match PlaceStorage app w1 with
        | (inl e, w2) =>
            (inr tt, (w2, tr ++ [Invoke (CallSavePlace place);
                                 Log INFO (SavedToWhoosh (name place));
                                 Invoke CallPlaceStorage;
                                 Log ERROR (ErrorSavingFirestore e)]))
        | (inr _, w2) =>
            match storage_save_place app place w2 with
            | (inl e, w3) =>
                (inr tt, (w3, tr ++ [Invoke (CallSavePlace place);
                                     Log INFO (SavedToWhoosh (name place));
                                     Invoke CallPlaceStorage;
                                     Invoke (CallStorageSavePlace place);
                                     Log ERROR (ErrorSavingFirestore e)]))
            | (inr id, w3) =>
                (inr tt, (w3, tr ++ [Invoke (CallSavePlace place);
                                     Log INFO (SavedToWhoosh (name place));
                                     Invoke CallPlaceStorage;
                                     Invoke (CallStorageSavePlace place);
                                     Log INFO (SavedToFirestore id)]))
            end
        end
    end.
Proof.
  unfold save_to_local_database, try_except, bind, invoke, log. cbn.
  destruct (save_place lp place w) as [[e | []] w1]; cbn.
  - rewrite <- app_assoc. reflexivity.
  - destruct (PlaceStorage app w1) as [[e | []] w2]; cbn.
    + rewrite <- !app_assoc. reflexivity.
    + destruct (storage_save_place app place w2) as [[e | id] w3]; cbn;
        rewrite <- !app_assoc; reflexivity.
Qed.

(** A details request that a vendor resolves: the response is the
    resolved place, and the state is the one the writes leave. *)
Lemma remote_details_run (args : Args) (pid src : string) (pn : ProviderName)
    (p : SearchProvider W) (place : Place) (w w1 : W) :
  args_get "place_id" args = Some pid ->
  args_get "source" args = Some src ->
  pid <> "" ->
  remote_provider app src = Some (pn, p) ->
  provider_get_place_details p pid w = (inr place, w1) ->
  run (get_place_details app args) w
  = (inr (jsonify (PlaceBody (place_json place))),
     match whoosh_provider app with
     | Some lp =>
         snd (save_to_local_database app lp place
                (w1, [Invoke (CallGetPlaceDetails pn pid)]))
     | None => (w1, [Invoke (CallGetPlaceDetails pn pid)])
     end).
Proof.
  intros Hid Hsrc Hne Hslot Hres.
  assert (Hpid : String.eqb pid "" = false) by (apply String.eqb_neq; exact Hne).
  unfold remote_provider in Hslot.
  unfold run, get_place_details, try_except, resolve_place.
  rewrite Hid, Hsrc. cbn. rewrite Hpid.
  destruct (String.eqb src "") eqn:Hsrc0.
  { apply String.eqb_eq in Hsrc0. subst src. discriminate. }
  cbn.
  assert (Hloc : String.eqb src "local" = false).
  { destruct (String.eqb src "local") eqn:E; [|reflexivity].
    apply String.eqb_eq in E. subst src. discriminate. }
  rewrite Hloc.
  assert (Hrun : forall (pn' : ProviderName),
             (place0 <- invoke (CallGetPlaceDetails pn' pid)
                               (provider_get_place_details p pid) ;;
              save_and_return app src place0) (w, [])
             = (inr (jsonify (PlaceBody (place_json place))),
                match whoosh_provider app with
                | Some lp =>
                    snd (save_to_local_database app lp place
                           (w1, [Invoke (CallGetPlaceDetails pn' pid)]))
                | None => (w1, [Invoke (CallGetPlaceDetails pn' pid)])
                end)).
  { intros pn'. unfold bind, invoke, save_and_return. cbn.
    rewrite Hres, Hloc. cbn.
    destruct (whoosh_provider app) as [lp|]; [|reflexivity].
    unfold bind. rewrite !save_to_local_database_run.
    destruct (save_place lp place w1) as [[e | u] w2]; [reflexivity|].
    destruct (PlaceStorage app w2) as [[e | u'] w3]; [reflexivity|].
    destruct (storage_save_place app place w3) as [[e | id] w4]; reflexivity. }
  destruct (String.eqb src "mapbox").
  - destruct (mapbox_provider app) as [p'|]; [|discriminate].
    injection Hslot as <- <-. rewrite Hrun. reflexivity.
  - destruct (String.eqb src "google"); [|discriminate].
    destruct (google_places_provider app) as [p'|]; [|discriminate].
    injection Hslot as <- <-. rewrite Hrun. reflexivity.
Qed.

End Persistence.

(** Without a local index neither write is tried (the guard of line
    164). *)
Lemma no_index_no_writes {W : Type} (app : App W) (args : Args)
    (pid src : string) (pn : ProviderName) (p : SearchProvider W)
    (place : Place) (w w1 : W) :
  args_get "place_id" args = Some pid ->
  args_get "source" args = Some src ->
  pid <> "" ->
  remote_provider app src = Some (pn, p) ->
  provider_get_place_details p pid w = (inr place, w1) ->
  whoosh_provider app = None ->
  run (get_place_details app args) w
  = (inr (mkResponse (PlaceBody (place_json place)) 200),
     (w1, [Invoke (CallGetPlaceDetails pn pid)])).
Proof.
  intros Hid Hsrc Hne Hslot Hres Hnone.
  rewrite (remote_details_run app args pid src pn p place w w1
             Hid Hsrc Hne Hslot Hres), Hnone.
  reflexivity.
Qed.

(** C7. Once the vendor has resolved the place, the details response
    is that place with status 200 whatever the two writes do, and a
    write that fails leaves an ERROR record in the log. *)
Theorem persistence_failures_never_surface :
  forall (W : Type) (app : App W) (args : Args) (pid src : string)
         (pn : ProviderName) (p : SearchProvider W) (place : Place) (w w1 : W),
    args_get "place_id" args = Some pid ->
    args_get "source" args = Some src ->
    pid <> "" ->
    remote_provider app src = Some (pn, p) ->
    provider_get_place_details p pid w = (inr place, w1) ->
    let r := run (get_place_details app args) w in
    result_of r = inr (mkResponse (PlaceBody (place_json place)) 200)
    /\ forall lp, whoosh_provider app = Some lp ->
         (forall e w2, save_place lp place w1 = (inl e, w2) ->
                       In (Log ERROR (ErrorSavingPlace e)) (trace_of r))
         /\ (forall u w2 e w3,
               save_place lp place w1 = (inr u, w2) ->
               durable_write app place w2 = (inl e, w3) ->
               In (Log ERROR (ErrorSavingFirestore e)) (trace_of r)).
Proof.
  intros W app args pid src pn p place w w1 Hid Hsrc Hne Hslot Hres r.
  subst r. rewrite (remote_details_run app args pid src pn p place w w1 Hid Hsrc Hne Hslot Hres).
  split; [reflexivity|].
  intros lp Hlp. rewrite Hlp, save_to_local_database_run.
  unfold trace_of. split.
  - intros e w2 Hs. rewrite Hs. cbn. auto.
  - intros u w2 e w3 Hs Hd. rewrite Hs.
    unfold durable_write in Hd.
    destruct (PlaceStorage app w2) as [[e' | u'] w3'].
    + injection Hd as <- <-. cbn. auto 10.
    + rewrite Hd. cbn. auto 10.
Qed.

Lemma persistence_failures_never_surface_witness :
  result_of (Sample.run_store_down Sample.details_mbx2)
  = inr (mkResponse (PlaceBody (place_json Demo.m2)) 200)
  /\ In (Log ERROR (ErrorSavingFirestore
                      (OtherError "ServiceUnavailable" "503 from the store")))
        (trace_of (Sample.run_store_down Sample.details_mbx2)).
Proof.
  destruct (persistence_failures_never_surface
              Demo.World Demo.app_store_down Sample.details_mbx2 "mbx.2" "mapbox"
              Mapbox (Demo.vendor Demo.mapbox_catalogue)
              Demo.m2 Demo.empty_world Demo.empty_world
              eq_refl eq_refl ltac:(discriminate) eq_refl eq_refl)
    as [Hr Hlog].
  split; [exact Hr|].
  destruct (Hlog Demo.local_index eq_refl) as [_ Hd].
  exact (Hd tt (Demo.mkWorld [Demo.m2] []) _ _ eq_refl eq_refl).
Defined.

(** C1, as the code has it.  On a details request that a vendor
    resolved, with the local index present, [save_place] on the index
    is always tried; the durable store is tried exactly when that call
    returned normally, and its own failure comes after the index write
    and leaves it in place.  Whichever write fails, the failure is
    logged at ERROR and the response is still the resolved place. *)
Theorem index_write_then_durable_write :
  forall (W : Type) (app : App W) (args : Args) (pid src : string)
         (pn : ProviderName) (p lp : SearchProvider W) (place : Place)
         (w w1 : W),
    args_get "place_id" args = Some pid ->
    args_get "source" args = Some src ->
    pid <> "" ->
    remote_provider app src = Some (pn, p) ->
    provider_get_place_details p pid w = (inr place, w1) ->
    whoosh_provider app = Some lp ->
    let r := run (get_place_details app args) w in
    calls (trace_of r)
    = CallGetPlaceDetails pn pid :: CallSavePlace place ::
        match save_place lp place w1 with
        | (inl _, _) => []
        | (inr _, w2) =>
            CallPlaceStorage ::
              match PlaceStorage app w2 with
              | (inl _, _) => []
              | (inr _, _) => [CallStorageSavePlace place]
              end
        end
    /\ result_of r = inr (mkResponse (PlaceBody (place_json place)) 200)
    /\ (forall e w2,
          save_place lp place w1 = (inl e, w2) ->
          world_of r = w2
          /\ In (Log ERROR (ErrorSavingPlace e)) (trace_of r))
    /\ (forall u w2 e w3,
          save_place lp place w1 = (inr u, w2) ->
          durable_write app place w2 = (inl e, w3) ->
          world_of r = w3
          /\ In (Log ERROR (ErrorSavingFirestore e)) (trace_of r)).
Proof.
  intros W app args pid src pn p lp place w w1 Hid Hsrc Hne Hslot Hres Hlp r.
  subst r. rewrite (remote_details_run app args pid src pn p place w w1
                      Hid Hsrc Hne Hslot Hres).
  rewrite Hlp, save_to_local_database_run.
  unfold trace_of, world_of, result_of, durable_write.
  split; [|split; [reflexivity|split]].
  - destruct (save_place lp place w1) as [[e | u] w2]; [reflexivity|].
    destruct (PlaceStorage app w2) as [[e | u'] w3]; [reflexivity|].
    destruct (storage_save_place app place w3) as [[e | id] w4]; reflexivity.
  - intros e w2 Hs. rewrite Hs. cbn. auto.
  - intros u w2 e w3 Hs Hd. rewrite Hs.
    destruct (PlaceStorage app w2) as [[e' | u'] w3'].
    + injection Hd as <- <-. cbn. auto 10.
    + rewrite Hd. cbn. auto 10.
Qed.

Lemma index_write_then_durable_write_witness :
  calls (trace_of (Sample.run_store_down Sample.details_g1))
  = [CallGetPlaceDetails Google "g-1"; CallSavePlace Demo.g1;
     CallPlaceStorage; CallStorageSavePlace Demo.g1]
  /\ world_of (Sample.run_store_down Sample.details_g1)
     = Demo.mkWorld [Demo.g1] [].
Proof.
  destruct (index_write_then_durable_write
              Demo.World Demo.app_store_down Sample.details_g1 "g-1" "google"
              Google (Demo.vendor Demo.google_catalogue) Demo.local_index
              Demo.g1 Demo.empty_world Demo.empty_world
              eq_refl eq_refl ltac:(discriminate) eq_refl eq_refl eq_refl)
    as [Hc [_ [_ Hd]]].
  split; [exact Hc|].
  exact (proj1 (Hd tt (Demo.mkWorld [Demo.g1] []) _ _ eq_refl eq_refl)).
Defined.

(** C1 as stated fails: when the index write raises, the durable
    store is not tried at all. *)
Lemma failed_index_write_skips_durable_store :
  save_place Demo.read_only_index Demo.m1 Demo.empty_world
  = (inl (OtherError "LockError" "index is locked"), Demo.empty_world)
  /\ result_of Sample.run_read_only
     = inr (mkResponse (PlaceBody (place_json Demo.m1)) 200)
  /\ calls (trace_of Sample.run_read_only)
     = [CallGetPlaceDetails Mapbox "mbx.1"; CallSavePlace Demo.m1]
  /\ ~ In CallPlaceStorage (calls (trace_of Sample.run_read_only))
  /\ ~ In (CallStorageSavePlace Demo.m1) (calls (trace_of Sample.run_read_only)).
Proof.
  cbn. repeat split; try reflexivity; intros [H | [H | []]]; discriminate.
Qed.

(** C8. The place handed to the index and to the durable store is the
    very place the vendor returned: no field is rewritten on the way,
    so a place the vendor tagged with its own name is never written
    with the tag [local]. *)
Theorem persistence_preserves_provenance :
  forall (W : Type) (app : App W) (args : Args) (pid src : string)
         (pn : ProviderName) (p : SearchProvider W) (place : Place) (w w1 : W),
    args_get "place_id" args = Some pid ->
    args_get "source" args = Some src ->
    pid <> "" ->
    remote_provider app src = Some (pn, p) ->
    provider_get_place_details p pid w = (inr place, w1) ->
    let cs := calls (trace_of (run (get_place_details app args) w)) in
    (forall pl,
        In (CallSavePlace pl) cs \/ In (CallStorageSavePlace pl) cs ->
        pl = place
        /\ (source place = src -> source pl = src /\ source pl <> "local"))
    /\ (forall lp, whoosh_provider app = Some lp -> In (CallSavePlace place) cs).
Proof.
  intros W app args pid src pn p place w w1 Hid Hsrc Hne Hslot Hres cs.
  assert (Hremote : src <> "local").
  { intros ->. discriminate. }
  assert (Hsame : forall pl,
             In (CallSavePlace pl) cs \/ In (CallStorageSavePlace pl) cs ->
             pl = place).
  { subst cs. rewrite (remote_details_run app args pid src pn p place w w1
                         Hid Hsrc Hne Hslot Hres).
    unfold trace_of.
    destruct (whoosh_provider app) as [lp|].
    - rewrite save_to_local_database_run.
      destruct (save_place lp place w1) as [[e | u] w2];
        [| destruct (PlaceStorage app w2) as [[e | u'] w3];
           [| destruct (storage_save_place app place w3) as [[e | id] w4]]];
        cbn; intros pl [H | H];
        repeat (destruct H as [H | H]; [congruence|]); contradiction.
    - cbn. intros pl [H | H];
        repeat (destruct H as [H | H]; [congruence|]); contradiction. }
  split.
  - intros pl H. apply Hsame in H. subst pl.
    split; [reflexivity|]. intros Htag. split; congruence.
  - intros lp Hlp. subst cs.
    rewrite (remote_details_run app args pid src pn p place w w1
               Hid Hsrc Hne Hslot Hres).
    rewrite Hlp, save_to_local_database_run. unfold trace_of.
    destruct (save_place lp place w1) as [[e | u] w2];
      [| destruct (PlaceStorage app w2) as [[e | u'] w3];
         [| destruct (storage_save_place app place w3) as [[e | id] w4]]];
      cbn; auto.
Qed.

Lemma persistence_preserves_provenance_witness :
  In (CallSavePlace Demo.m1) (calls (trace_of Sample.run_details_mbx1))
  /\ In (CallStorageSavePlace Demo.m1) (calls (trace_of Sample.run_details_mbx1))
  /\ source Demo.m1 = "mapbox".
Proof.
  destruct (persistence_preserves_provenance
              Demo.World Demo.app Sample.details_mbx1 "mbx.1" "mapbox"
              Mapbox (Demo.vendor Demo.mapbox_catalogue)
              Demo.m1 Demo.empty_world Demo.empty_world
              eq_refl eq_refl ltac:(discriminate) eq_refl eq_refl)
    as [Hsame Hdone].
  split; [exact (Hdone Demo.local_index eq_refl)|].
  split; [cbn; auto|].
  assert (Hin : In (CallStorageSavePlace Demo.m1)
                   (calls (trace_of Sample.run_details_mbx1))) by (cbn; auto).
  exact (proj1 (proj2 (Hsame Demo.m1 (or_intror Hin)) eq_refl)).
Defined.

(** ** Details from the local index *)

(** Lines 140-147 and 181-193 on a request with [source=local] and the
    local provider present. *)
Lemma local_details_run {W : Type} (app : App W) (args : Args) (pid : string)
    (lp : SearchProvider W) (w : W) :
  args_get "place_id" args = Some pid ->
  args_get "source" args = Some "local" ->
  pid <> "" ->
  whoosh_provider app = Some lp ->
  run (get_place_details app args) w
  = match search lp pid 1 None None w with
    | (inl e, w') =>
        (inr (mkResponse (ErrorBody (Str e)) 500),
         (w', [Invoke (CallSearch Local pid 1 None None);
               Log ERROR (ErrorGettingDetails e)]))
    | (inr [], w') =>
        (inr (error "Place not found" 404),
         (w', [Invoke (CallSearch Local pid 1 None None)]))
    | (inr (place :: _), w') =>
        (inr (mkResponse (PlaceBody (place_json place)) 200),
         (w', [Invoke (CallSearch Local pid 1 None None)]))
    end.
Proof.
  intros Hid Hsrc Hne Hlp.
  assert (Hpid : String.eqb pid "" = false) by (apply String.eqb_neq; exact Hne).
  unfold run, get_place_details, try_except, resolve_place.
  rewrite Hid, Hsrc. cbn. rewrite Hpid, Hlp. cbn.
  unfold bind, invoke. cbn.
  destruct (search lp pid 1 None None w) as [[e | [| place rest]] w'];
    reflexivity.
Qed.

(** C5. A details request with [source=local] is answered by one text
    search of the local provider, with the place id as the query and
    limit 1; an empty result gives the 404 "Place not found", and a
    non-empty one gives its first place. *)
Theorem local_details_is_search_by_id :
  forall (W : Type) (app : App W) (args : Args) (pid : string)
         (lp : SearchProvider W) (w : W),
    args_get "place_id" args = Some pid ->
    args_get "source" args = Some "local" ->
    pid <> "" ->
    whoosh_provider app = Some lp ->
    let r := run (get_place_details app args) w in
    calls (trace_of r) = [CallSearch Local pid 1 None None]
    /\ world_of r = snd (search lp pid 1 None None w)
    /\ (forall w',
          search lp pid 1 None None w = (inr [], w') ->
          result_of r = inr (mkResponse (ErrorBody (Literal "Place not found")) 404))
    /\ (forall place rest w',
          search lp pid 1 None None w = (inr (place :: rest), w') ->
          result_of r = inr (mkResponse (PlaceBody (place_json place)) 200)).
Proof.
  intros W app args pid lp w Hid Hsrc Hne Hlp r. subst r.
  rewrite (local_details_run app args pid lp w Hid Hsrc Hne Hlp).
  destruct (search lp pid 1 None None w) as [[e | [| place rest]] w'];
    cbn; repeat split; try reflexivity; intros; try discriminate;
    match goal with
    | H : (_, _) = (_, _) |- _ => injection H as; subst; reflexivity
    end.
Qed.

Lemma local_details_is_search_by_id_witness :
  calls (trace_of Sample.run_local_missing)
  = [CallSearch Local "mbx.404" 1 None None]
  /\ result_of Sample.run_local_missing
     = inr (mkResponse (ErrorBody (Literal "Place not found")) 404).
Proof.
  destruct (local_details_is_search_by_id
              Demo.World Demo.app Sample.local_missing "mbx.404" Demo.local_index
              (Demo.mkWorld [Demo.m1] [])
              eq_refl eq_refl ltac:(discriminate) eq_refl)
    as [Hc [_ [Hnone _]]].
  split; [exact Hc | exact (Hnone _ eq_refl)].
Defined.

(** C9. With [source=local] the first hit of the text search is
    returned as it is, whatever its id: the handler never compares it
    with the id that was asked for.  A local index holding a place
    named "Coffee Lab" under the id [mbx.1] answers the id [Coffee]
    with that place. *)
Theorem local_details_returns_first_hit_unchecked :
  (forall (W : Type) (app : App W) (args : Args) (pid : string)
          (lp : SearchProvider W) (w w' : W) (place : Place) (rest : list Place),
      args_get "place_id" args = Some pid ->
      args_get "source" args = Some "local" ->
      pid <> "" ->
      whoosh_provider app = Some lp ->
      search lp pid 1 None None w = (inr (place :: rest), w') ->
      result_of (run (get_place_details app args) w)
      = inr (mkResponse (PlaceBody (place_json place)) 200))
  /\ exists (w : Demo.World) (pid : string) (pj : PlaceJson),
      result_of (run (get_place_details Demo.app
                        [("place_id", pid); ("source", "local")]) w)
      = inr (mkResponse (PlaceBody pj) 200)
      /\ pj_id pj <> pid.
Proof.
  split.
  - intros W app args pid lp w w' place rest Hid Hsrc Hne Hlp Hs.
    rewrite (local_details_run app args pid lp w Hid Hsrc Hne Hlp), Hs.
    reflexivity.
  - exists (Demo.mkWorld [Demo.m1] []), "Coffee", (place_json Demo.m1).
    split; [reflexivity | discriminate].
Qed.

Lemma local_details_returns_first_hit_unchecked_witness :
  result_of (run (get_place_details Demo.app Sample.local_main)
                 (Demo.mkWorld [Demo.g1; Demo.m1] []))
  = inr (mkResponse (PlaceBody (place_json Demo.g1)) 200)
  /\ place_id Demo.g1 <> "Main".
Proof.
  split.
  - exact (proj1 local_details_returns_first_hit_unchecked
             Demo.World Demo.app Sample.local_main
             "Main" Demo.local_index (Demo.mkWorld [Demo.g1; Demo.m1] [])
             (Demo.mkWorld [Demo.g1; Demo.m1] []) Demo.g1 []
             eq_refl eq_refl ltac:(discriminate) eq_refl eq_refl).
  - discriminate.
Defined.

(** ** Suggestions once the parameters are read *)

(** With a query and with numbers that convert, the handler logs the
    request and goes on to the dispatch. *)
Lemma search_suggestions_parsed {W : Type} (py : Py.interpreter) (app : App W) (args : Args) :
  truthy (args_get "query" args) = true ->
  conversion_error py args = None ->
  exists n la lo,
    requested_limit py args = Some n
    /\ forall w,
        run (search_suggestions py app args) w
        = try_except
            (dispatch_search app (requested_provider py args)
               (value (args_get "query" args)) (Z.min n 5) la lo)
            search_failed
            (w, [Log DEBUG (SearchRequest (args_get "query" args)
                              (requested_provider py args) (Z.min n 5) la lo)]).
Proof.
  intros Hq Hconv.
  unfold conversion_error, int_ok, float_ok in Hconv.
  unfold requested_limit, requested_provider, run, search_suggestions,
    search_suggestions_body, try_except, bind, int_arg, float_arg.
  destruct (args_get "limit" args) as [sl|];
    [destruct (Py.int py sl) as [n|]; [|discriminate]|];
  (destruct (args_get "latitude" args) as [sa|];
    [destruct (Py.float py sa) as [la|]; [|discriminate]|]);
  (destruct (args_get "longitude" args) as [so|];
    [destruct (Py.float py so) as [lo|]; [|discriminate]|]);
  rewrite Hq; cbn; do 3 eexists; (split; [reflexivity|]);
  intros w; reflexivity.
Qed.

(** ** The orchestrated search *)

Section Orchestrated.

Context {W : Type} (whoosh mapbox google : option (SearchProvider W)).

Lemma contribution_quiet (p : option (SearchProvider W)) (query : string)
    (limit : Z) (la lo : option Py.pyfloat) (w : W) :
  quiet p ->
  exists l w', contribution p query limit la lo w = (inr l, w').
Proof.
  intros Hp. unfold contribution.
  destruct p as [sp|]; [|eauto].
  specialize (Hp sp eq_refl query limit la lo w).
  destruct (search sp query limit la lo w) as [[e | l] w']; cbn in Hp.
  - destruct e; try contradiction. eauto.
  - eauto.
Qed.

(** With quiet providers the orchestrator returns a sequence. *)
Lemma orchestrator_returns (query : string) (limit : Z)
    (la lo : option Py.pyfloat) (w : W) :
  quiet whoosh -> quiet mapbox -> quiet google ->
  exists l w',
    SearchOrchestrator_search whoosh mapbox google query limit la lo w
    = (inr l, w').
Proof.
  intros Hw Hm Hg. unfold SearchOrchestrator_search.
  destruct (contribution_quiet whoosh query limit la lo w Hw) as [l1 [w1 ->]].
  destruct (contribution_quiet mapbox query limit la lo w1 Hm) as [l2 [w2 ->]].
  destruct (contribution_quiet google query limit la lo w2 Hg) as [l3 [w3 ->]].
  eauto.
Qed.

(** What the orchestrator returns is no longer than [limit]. *)
Lemma orchestrator_length (query : string) (limit : Z)
    (la lo : option Py.pyfloat) (w w' : W) (l : list Place) :
  SearchOrchestrator_search whoosh mapbox google query limit la lo w
  = (inr l, w') ->
  (length l <= Z.to_nat limit)%nat.
Proof.
  unfold SearchOrchestrator_search.
  destruct (contribution whoosh query limit la lo w) as [[e | l1] w1];
    [discriminate|].
  destruct (contribution mapbox query limit la lo w1) as [[e | l2] w2];
    [discriminate|].
  destruct (contribution google query limit la lo w2) as [[e | l3] w3];
    [discriminate|].
  intros [= <- _]. apply firstn_le_length.
Qed.

(** No provider at all: an empty sequence, and the world untouched. *)
Lemma orchestrator_alone (query : string) (limit : Z)
    (la lo : option Py.pyfloat) (w : W) :
  SearchOrchestrator_search (W := W) None None None query limit la lo w
  = (inr [], w).
Proof.
  unfold SearchOrchestrator_search, contribution. cbn.
  rewrite firstn_nil. reflexivity.
Qed.

End Orchestrated.

(** The [all] branch of the dispatch (lines 92-94 and 101-120). *)
Lemma dispatch_all_run {W : Type} (app : App W) (query : string) (limit : Z)
    (la lo : option Py.pyfloat) (w : W) (tr : list Event) :
  try_except (dispatch_search app "all" query limit la lo) search_failed (w, tr)
  = match search_orchestrator app query limit la lo w with
    | (inl e, w') =>
        (inr (mkResponse (ErrorBody (Str e)) 500),
         (w', tr ++ [Log DEBUG UsingAll;
                     Invoke (CallOrchestratorSearch query limit la lo);
                     Log ERROR (ErrorDuringSearch e)]))
    | (inr results, w') =>
        (inr (mkResponse (SuggestionsBody (map suggestion_of results)) 200),
         (w', tr ++ [Log DEBUG UsingAll;
                     Invoke (CallOrchestratorSearch query limit la lo);
                     Log DEBUG (FoundResults (length results))]))
    end.
Proof.
  unfold try_except, dispatch_search, search_failed, suggestions_response,
    bind, invoke, log. cbn.
  destruct (search_orchestrator app query limit la lo w) as [[e | results] w'];
    cbn; rewrite <- !app_assoc; reflexivity.
Qed.

(** C3. A request with [provider=all] and a query, over any choice of
    present and absent providers, is answered with at most five
    suggestions whatever limit was asked for, and with no more than
    that limit (a count, so not negative).  With quiet providers the
    answer is such a list, with status 200. *)
Theorem orchestrated_search_is_capped :
  forall (W : Type) (py : Py.interpreter) (whoosh mapbox google : option (SearchProvider W))
         (storage : Op W unit) (storage_save : Place -> Op W string)
         (args : Args) (w : W) (n : Z),
    requested_provider py args = "all" ->
    truthy (args_get "query" args) = true ->
    conversion_error py args = None ->
    requested_limit py args = Some n ->
    let r := run (search_suggestions py
                    (make_app whoosh mapbox google storage storage_save) args) w in
    (quiet whoosh -> quiet mapbox -> quiet google ->
     exists l, result_of r = inr (mkResponse (SuggestionsBody l) 200))
    /\ (forall l code,
          result_of r = inr (mkResponse (SuggestionsBody l) code) ->
          (length l <= 5)%nat /\ (0 <= n -> Z.of_nat (length l) <= n)).
Proof.
  intros W py whoosh mapbox google storage storage_save args w n
         Hall Hq Hconv Hlimit r.
  subst r.
  destruct (search_suggestions_parsed py
              (make_app whoosh mapbox google storage storage_save) args Hq Hconv)
    as [n' [la [lo [Hlimit' Hrun]]]].
  rewrite Hlimit in Hlimit'. injection Hlimit' as <-.
  rewrite Hrun, Hall, dispatch_all_run. cbn [search_orchestrator make_app].
  split.
  - intros Hw Hm Hg.
    destruct (orchestrator_returns whoosh mapbox google
                (value (args_get "query" args)) (Z.min n 5) la lo w Hw Hm Hg)
      as [l [w' ->]].
    eexists. reflexivity.
  - intros l code.
    destruct (SearchOrchestrator_search whoosh mapbox google
                (value (args_get "query" args)) (Z.min n 5) la lo w)
      as [[e | results] w'] eqn:Hs; cbn; [discriminate|].
    intros [= <- _].
    apply orchestrator_length in Hs.
    rewrite length_map. lia.
Qed.

Lemma orchestrated_search_is_capped_witness :
  result_of Sample.run_coffee_3
  = inr (mkResponse (SuggestionsBody
                       (map suggestion_of [Demo.m1; Demo.m2; Demo.g1])) 200)
  /\ (length (map suggestion_of [Demo.m1; Demo.m2; Demo.g1]) <= 5)%nat
  /\ Z.of_nat (length (map suggestion_of [Demo.m1; Demo.m2; Demo.g1])) <= 3.
Proof.
  split; [reflexivity|].
  pose proof (proj2 (orchestrated_search_is_capped
                  Demo.World Demo.python (Some Demo.local_index)
                  (Some (Demo.vendor Demo.mapbox_catalogue))
                  (Some (Demo.vendor Demo.google_catalogue))
                  Demo.storage_ok Demo.storage_save Sample.coffee_3
                  Demo.empty_world 3
                  eq_refl eq_refl eq_refl eq_refl)
               _ 200 eq_refl) as [H5 H3].
  split; [exact H5 | apply H3; lia].
Defined.

(** ** A provider that is not there *)

Lemma direct_cases (provider : string) :
  is_direct provider = true ->
  provider = "local" \/ provider = "mapbox" \/ provider = "google".
Proof.
  unfold is_direct. intros H.
  destruct (String.eqb_spec provider "local"); [auto|].
  destruct (String.eqb_spec provider "mapbox"); [auto|].
  destruct (String.eqb_spec provider "google"); [auto|].
  discriminate.
Qed.

(** C6. A direct request that names [local], [mapbox] or [google]
    while that provider is absent is answered with status 503, for
    suggestions and for details alike, and nothing is called.  With
    [provider=all] an absent provider only contributes nothing: over
    quiet providers, present or absent, the answer has status 200, and
    with none present it is the empty list. *)
Theorem absent_provider_is_unavailable_or_skipped :
  forall (W : Type) (py : Py.interpreter),
    (forall (app : App W) (args : Args) (w : W),
        truthy (args_get "query" args) = true ->
        conversion_error py args = None ->
        is_direct (requested_provider py args) = true ->
        named_provider app (requested_provider py args) = None ->
        let r := run (search_suggestions py app args) w in
        result_of r
        = inr (mkResponse
                 (ErrorBody (Literal (unavailable_text (requested_provider py args))))
                 503)
        /\ calls (trace_of r) = []
        /\ world_of r = w)
    /\ (forall (app : App W) (args : Args) (src : string) (w : W),
          truthy (args_get "place_id" args) = true ->
          args_get "source" args = Some src ->
          is_direct src = true ->
          named_provider app src = None ->
          let r := run (get_place_details app args) w in
          result_of r
          = inr (mkResponse (ErrorBody (Literal (unavailable_text src))) 503)
          /\ calls (trace_of r) = []
          /\ world_of r = w)
    /\ (forall (whoosh mapbox google : option (SearchProvider W))
               (storage : Op W unit) (storage_save : Place -> Op W string)
               (args : Args) (w : W),
          truthy (args_get "query" args) = true ->
          conversion_error py args = None ->
          requested_provider py args = "all" ->
          let r := run (search_suggestions py
                          (make_app whoosh mapbox google storage storage_save)
                          args) w in
          (quiet whoosh -> quiet mapbox -> quiet google ->
           exists l, result_of r = inr (mkResponse (SuggestionsBody l) 200))
          /\ (whoosh = None -> mapbox = None -> google = None ->
              result_of r = inr (mkResponse (SuggestionsBody []) 200)
              /\ world_of r = w)).
Proof.
  intros W. split; [|split].
  - intros app args w Hq Hconv Hdirect Habsent r. subst r.
    destruct (search_suggestions_parsed py app args Hq Hconv)
      as [n [la [lo [_ Hrun]]]].
    rewrite Hrun. clear Hrun.
    unfold named_provider in Habsent.
    destruct (direct_cases _ Hdirect) as [E | [E | E]];
      rewrite E in *; cbn in Habsent; unfold try_except, dispatch_search; cbn;
      rewrite Habsent; cbn; auto.
  - intros app args src w Hid Hsrc Hdirect Habsent r. subst r.
    unfold named_provider in Habsent.
    unfold run, get_place_details, try_except, resolve_place.
    rewrite Hsrc, Hid.
    destruct (direct_cases _ Hdirect) as [-> | [-> | ->]];
      cbn in Habsent; cbn; rewrite Habsent; cbn; auto.
  - intros whoosh mapbox google storage storage_save args w Hq Hconv Hall r.
    subst r.
    destruct (search_suggestions_parsed py
                (make_app whoosh mapbox google storage storage_save) args Hq Hconv)
      as [n [la [lo [_ Hrun]]]].
    rewrite Hrun, Hall, dispatch_all_run. cbn [search_orchestrator make_app].
    split.
    + intros Hw Hm Hg.
      destruct (orchestrator_returns whoosh mapbox google
                  (value (args_get "query" args)) (Z.min n 5) la lo w Hw Hm Hg)
        as [l [w' ->]].
      eexists. reflexivity.
    + intros -> -> ->. rewrite orchestrator_alone. cbn. auto.
Qed.

Lemma absent_provider_is_unavailable_or_skipped_witness :
  result_of (run (search_suggestions Demo.python Demo.app_bare
                    [("query", "Coffee"); ("provider", "MAPBOX")])
                 Demo.empty_world)
  = inr (mkResponse
           (ErrorBody (Literal "Mapbox search provider is not available")) 503)
  /\ result_of (run (get_place_details Demo.app_bare
                       [("place_id", "g-1"); ("source", "google")])
                    Demo.empty_world)
     = inr (mkResponse
              (ErrorBody (Literal "Google Places search provider is not available"))
              503)
  /\ result_of (run (search_suggestions Demo.python Demo.app_bare [("query", "Coffee")])
                    Demo.empty_world)
     = inr (mkResponse (SuggestionsBody []) 200).
Proof.
  destruct (absent_provider_is_unavailable_or_skipped Demo.World Demo.python)
    as [Hsearch [Hdetails Hall]].
  split; [|split].
  - exact (proj1 (Hsearch Demo.app_bare
                    [("query", "Coffee"); ("provider", "MAPBOX")]
                    Demo.empty_world eq_refl eq_refl eq_refl eq_refl)).
  - exact (proj1 (Hdetails Demo.app_bare
                    [("place_id", "g-1"); ("source", "google")] "google"
                    Demo.empty_world eq_refl eq_refl eq_refl eq_refl)).
  - exact (proj1 (proj2 (Hall None None None Demo.storage_ok Demo.storage_save
                           [("query", "Coffee")] Demo.empty_world
                           eq_refl eq_refl eq_refl)
                    eq_refl eq_refl eq_refl)).
Defined.

(** * Further properties of the handlers *)

(** ** The shape of a suggestions run *)

Section SuggestionRuns.

Context {W : Type} (py : Py.interpreter) (app : App W).

(** A conversion that raises ends the request at once: lines 55-66
    come before the query is looked at. *)
Lemma conversion_failure_run (args : Args) (e : exn) (w : W) :
  conversion_error py args = Some e ->
  run (search_suggestions py app args) w
  = (inr (mkResponse (ErrorBody (Str e)) 500),
     (w, [Log ERROR (ErrorDuringSearch e)])).
Proof.
  unfold conversion_error, int_ok, float_ok, run, search_suggestions,
    search_suggestions_body, try_except, bind, int_arg, float_arg.
  destruct (args_get "limit" args) as [sl|];
    [destruct (Py.int py sl) as [n|]; [|cbn; intros [= <-]; reflexivity]|];
  (destruct (args_get "latitude" args) as [sa|];
    [destruct (Py.float py sa) as [la|]; [|cbn; intros [= <-]; reflexivity]|]);
  (destruct (args_get "longitude" args) as [so|];
    [destruct (Py.float py so) as [lo|]; [|cbn; intros [= <-]; reflexivity]|]);
  cbn; discriminate.
Qed.

(** Without a query, once the numbers have converted: the request is
    logged and turned down. *)
Lemma missing_query_run (args : Args) (w : W) :
  conversion_error py args = None ->
  truthy (args_get "query" args) = false ->
  run (search_suggestions py app args) w
  = (inr (mkResponse (ErrorBody (Literal "Query parameter is required")) 400),
     (w, [Log DEBUG (SearchRequest (args_get "query" args)
                       (requested_provider py args)
                       (Z.min (match requested_limit py args with
                               | Some n => n
                               | None => 5
                               end) 5)
                       (float_value py (args_get "latitude" args))
                       (float_value py (args_get "longitude" args)));
          Log WARNING NoQueryParameter])).
Proof.
  unfold conversion_error, int_ok, float_ok, run, search_suggestions,
    search_suggestions_body, try_except, bind, int_arg, float_arg,
    requested_limit, requested_provider, float_value.
  intros Hconv Hq.
  destruct (args_get "limit" args) as [sl|];
    [destruct (Py.int py sl) as [n|]; [|discriminate]|];
  (destruct (args_get "latitude" args) as [sa|];
    [destruct (Py.float py sa) as [la|]; [|discriminate]|]);
  (destruct (args_get "longitude" args) as [so|];
    [destruct (Py.float py so) as [lo|]; [|discriminate]|]);
  rewrite Hq; reflexivity.
Qed.

(** What the dispatch of lines 76-99 can do: answer 400 or 503 without
    a call, or make one call and answer by its outcome. *)
Lemma dispatch_shape (provider query : string) (limit : Z)
    (la lo : option Py.pyfloat) (w : W) (tr : list Event) :
  (exists resp logs,
      try_except (dispatch_search app provider query limit la lo)
                 search_failed (w, tr)
      = (inr resp, (w, tr ++ logs))
      /\ calls logs = []
      /\ (status resp = 400 \/ status resp = 503)
      /\ is_suggestions (body resp) = false)
  \/ (exists banner c (op : Op W (list Place)),
         call_limit c = Some limit
         /\ try_except (dispatch_search app provider query limit la lo)
                       search_failed (w, tr)
            = match op w with
              | (inr results, w') =>
                  (inr (mkResponse
                          (SuggestionsBody (map suggestion_of results)) 200),
                   (w', tr ++ [Log DEBUG banner; Invoke c;
                               Log DEBUG (FoundResults (length results))]))
              | (inl e, w') =>
                  (inr (mkResponse (ErrorBody (Str e)) 500),
                   (w', tr ++ [Log DEBUG banner; Invoke c;
                               Log ERROR (ErrorDuringSearch e)]))
              end).
Proof.
  unfold dispatch_search.
  assert (Hcall : forall banner c (op : Op W (list Place)),
             try_except
               (log DEBUG banner ;;;
                results <- invoke c op ;; suggestions_response results)
               search_failed (w, tr)
             = match op w with
               | (inr results, w') =>
                   (inr (mkResponse
                           (SuggestionsBody (map suggestion_of results)) 200),
                    (w', tr ++ [Log DEBUG banner; Invoke c;
                                Log DEBUG (FoundResults (length results))]))
               | (inl e, w') =>
                   (inr (mkResponse (ErrorBody (Str e)) 500),
                    (w', tr ++ [Log DEBUG banner; Invoke c;
                                Log ERROR (ErrorDuringSearch e)]))
               end).
  { intros banner c op.
    unfold try_except, search_failed, suggestions_response, bind, invoke, log.
    cbn. destruct (op w) as [[e | results] w']; cbn;
      rewrite <- !app_assoc; reflexivity. }
  assert (Hnone : forall banner text code,
             code = 400 \/ code = 503 ->
             exists resp logs,
               try_except (log DEBUG banner ;;; ret (error text code))
                          search_failed (w, tr)
               = (inr resp, (w, tr ++ logs))
               /\ calls logs = []
               /\ (status resp = 400 \/ status resp = 503)
               /\ is_suggestions (body resp) = false).
  { intros banner text code Hcode.
    exists (error text code), [Log DEBUG banner]. auto. }
  destruct (String.eqb provider "local").
  { destruct (whoosh_provider app) as [p|].
    - right. do 3 eexists. split; [|apply Hcall]. reflexivity.
    - left. apply Hnone. auto. }
  destruct (String.eqb provider "mapbox").
  { destruct (mapbox_provider app) as [p|].
    - right. do 3 eexists. split; [|apply Hcall]. reflexivity.
    - left. apply Hnone. auto. }
  destruct (String.eqb provider "google").
  { destruct (google_places_provider app) as [p|].
    - right. do 3 eexists. split; [|apply Hcall]. reflexivity.
    - left. apply Hnone. auto. }
  destruct (String.eqb provider "all").
  { right. do 3 eexists. split; [|apply Hcall]. reflexivity. }
  left.
  exists (error "Invalid provider. Must be one of: local, mapbox, google, all" 400),
    [Log WARNING (InvalidProvider provider)].
  auto.
Qed.

(** Every run of [search_suggestions]: an answer without any call,
    from an untouched world, or one call and an answer by its
    outcome. *)
Lemma suggestions_shape (args : Args) (w : W) :
  (exists resp logs,
      run (search_suggestions py app args) w = (inr resp, (w, logs))
      /\ calls logs = []
      /\ (status resp = 400 \/ status resp = 500 \/ status resp = 503)
      /\ is_suggestions (body resp) = false)
  \/ (exists n pre c (op : Op W (list Place)),
         requested_limit py args = Some n
         /\ calls pre = []
         /\ call_limit c = Some (Z.min n 5)
         /\ run (search_suggestions py app args) w
            = match op w with
              | (inr results, w') =>
                  (inr (mkResponse
                          (SuggestionsBody (map suggestion_of results)) 200),
                   (w', pre ++ [Invoke c;
                                Log DEBUG (FoundResults (length results))]))
              | (inl e, w') =>
                  (inr (mkResponse (ErrorBody (Str e)) 500),
                   (w', pre ++ [Invoke c; Log ERROR (ErrorDuringSearch e)]))
              end).
Proof.
  destruct (conversion_error py args) as [e|] eqn:Hconv.
  { left. rewrite (conversion_failure_run args e w Hconv).
    do 2 eexists. split; [reflexivity|]. cbn. auto. }
  destruct (truthy (args_get "query" args)) eqn:Hq.
  2:{ left. rewrite (missing_query_run args w Hconv Hq).
      do 2 eexists. split; [reflexivity|]. cbn. auto. }
  destruct (search_suggestions_parsed py app args Hq Hconv)
    as [n [la [lo [Hlimit Hrun]]]].
  rewrite Hrun.
  destruct (dispatch_shape (requested_provider py args)
              (value (args_get "query" args)) (Z.min n 5) la lo w
              [Log DEBUG (SearchRequest (args_get "query" args)
                            (requested_provider py args) (Z.min n 5) la lo)])
    as [[resp [logs [-> [Hc [Hs Hb]]]]] | [banner [c [op [Hl ->]]]]].
  - left. do 2 eexists. split; [reflexivity|].
    cbn. intuition.
  - right. exists n.
    exists [Log DEBUG (SearchRequest (args_get "query" args)
                         (requested_provider py args) (Z.min n 5) la lo);
            Log DEBUG banner], c, op.
    repeat split; auto.
Qed.

End SuggestionRuns.

Lemma calls_app (a b : list Event) : calls (a ++ b) = calls a ++ calls b.
Proof.
  induction a as [| [lvl m | c] a IH]; cbn; [reflexivity | exact IH |].
  rewrite IH. reflexivity.
Qed.

(** With a query and numbers that convert, the dispatch runs on the
    capped limit and the converted location. *)
Lemma search_suggestions_dispatches {W : Type} (py : Py.interpreter) (app : App W) (args : Args)
    (n : Z) (w : W) :
  truthy (args_get "query" args) = true ->
  conversion_error py args = None ->
  requested_limit py args = Some n ->
  run (search_suggestions py app args) w
  = try_except
      (dispatch_search app (requested_provider py args)
         (value (args_get "query" args)) (Z.min n 5)
         (float_value py (args_get "latitude" args))
         (float_value py (args_get "longitude" args)))
      search_failed
      (w, [Log DEBUG (SearchRequest (args_get "query" args)
                        (requested_provider py args) (Z.min n 5)
                        (float_value py (args_get "latitude" args))
                        (float_value py (args_get "longitude" args)))]).
Proof.
  intros Hq Hconv Hlimit.
  unfold conversion_error, int_ok, float_ok in Hconv.
  unfold requested_limit in Hlimit.
  unfold requested_provider, run, search_suggestions,
    search_suggestions_body, try_except, bind, int_arg, float_arg, float_value.
  destruct (args_get "limit" args) as [sl|];
    [destruct (Py.int py sl) as [n'|]; [|discriminate]|];
  injection Hlimit as <-;
  (destruct (args_get "latitude" args) as [sa|];
    [destruct (Py.float py sa) as [la|]; [|discriminate]|]);
  (destruct (args_get "longitude" args) as [so|];
    [destruct (Py.float py so) as [lo|]; [|discriminate]|]);
  rewrite Hq; reflexivity.
Qed.

(** One call and the answer by its outcome (lines 101-126). *)
Lemma call_and_answer {W : Type} (banner : LogMsg) (c : Call)
    (op : Op W (list Place)) (w : W) (tr : list Event) :
  try_except
    (log DEBUG banner ;;;
     results <- invoke c op ;; suggestions_response results)
    search_failed (w, tr)
  = match op w with
    | (inr results, w') =>
        (inr (mkResponse (SuggestionsBody (map suggestion_of results)) 200),
         (w', tr ++ [Log DEBUG banner; Invoke c;
                     Log DEBUG (FoundResults (length results))]))
    | (inl e, w') =>
        (inr (mkResponse (ErrorBody (Str e)) 500),
         (w', tr ++ [Log DEBUG banner; Invoke c;
                     Log ERROR (ErrorDuringSearch e)]))
    end.
Proof.
  unfold try_except, search_failed, suggestions_response, bind, invoke, log.
  cbn. destruct (op w) as [[e | results] w']; cbn;
    rewrite <- !app_assoc; reflexivity.
Qed.

(** X1. [search_suggestions] always answers: no exception leaves it,
    the status is one of 200, 400, 500 and 503, and the status is 200
    exactly when the body is a list of suggestions. *)
Theorem search_suggestions_status_codes :
  forall (W : Type) (py : Py.interpreter) (app : App W) (args : Args) (w : W),
  exists resp,
    result_of (run (search_suggestions py app args) w) = inr resp
    /\ suggestion_status (status resp) = true
    /\ (status resp = 200 <-> is_suggestions (body resp) = true).
Proof.
  intros W py app args w.
  destruct (suggestions_shape py app args w)
    as [[resp [logs [-> [_ [Hs Hb]]]]] | [n [pre [c [op [_ [_ [_ ->]]]]]]]].
  - exists resp. split; [reflexivity|]. split.
    + unfold suggestion_status.
      destruct Hs as [-> | [-> | ->]]; reflexivity.
    + rewrite Hb. split; [|discriminate].
      intros H200. destruct Hs as [H | [H | H]]; rewrite H in H200;
        discriminate.
  - destruct (op w) as [[e | results] w']; eexists;
      (split; [reflexivity|]); cbn; split; try reflexivity;
      split; (reflexivity || discriminate).
Qed.

(** X2. A [limit], [latitude] or [longitude] that does not convert is
    answered with status 500 and the text of the first conversion that
    raised, whatever else the request holds: nothing is called, the
    world is untouched, and the only record is the ERROR one. *)
Theorem failed_conversion_is_500 :
  forall (W : Type) (py : Py.interpreter) (app : App W) (args : Args) (e : exn) (w : W),
    conversion_error py args = Some e ->
    let r := run (search_suggestions py app args) w in
    result_of r = inr (mkResponse (ErrorBody (Str e)) 500)
    /\ world_of r = w
    /\ trace_of r = [Log ERROR (ErrorDuringSearch e)].
Proof.
  intros W py app args e w Hconv r. subst r.
  rewrite (conversion_failure_run py app args e w Hconv).
  repeat split.
Qed.

Lemma failed_conversion_is_500_witness :
  result_of (run (search_suggestions Demo.python Demo.app Fixture.bad_limit) Demo.empty_world)
  = inr (mkResponse (ErrorBody (Str (ValueError_int "five"))) 500)
  /\ trace_of (run (search_suggestions Demo.python Demo.app Fixture.bad_limit)
                   Demo.empty_world)
     = [Log ERROR (ErrorDuringSearch (ValueError_int "five"))].
Proof.
  destruct (failed_conversion_is_500 Demo.World Demo.python Demo.app Fixture.bad_limit
              (ValueError_int "five") Demo.empty_world eq_refl)
    as [Hr [_ Ht]].
  split; [exact Hr | exact Ht].
Defined.

(** X3. A provider name that, in lower case, is none of [local],
    [mapbox], [google] and [all] is answered with the 400 "Invalid
    provider" and a WARNING: nothing is called and the world is
    untouched. *)
Theorem invalid_provider_is_400 :
  forall (W : Type) (py : Py.interpreter) (app : App W) (args : Args) (w : W),
    truthy (args_get "query" args) = true ->
    conversion_error py args = None ->
    is_direct (requested_provider py args) = false ->
    requested_provider py args <> "all" ->
    let r := run (search_suggestions py app args) w in
    result_of r
    = inr (mkResponse
             (ErrorBody
                (Literal "Invalid provider. Must be one of: local, mapbox, google, all"))
             400)
    /\ calls (trace_of r) = []
    /\ world_of r = w
    /\ In (Log WARNING (InvalidProvider (requested_provider py args))) (trace_of r).
Proof.
  intros W py app args w Hq Hconv Hdirect Hall r. subst r.
  destruct (search_suggestions_parsed py app args Hq Hconv)
    as [n [la [lo [_ Hrun]]]].
  rewrite Hrun. clear Hrun.
  unfold is_direct in Hdirect.
  apply orb_false_elim in Hdirect as [Hdirect Hg].
  apply orb_false_elim in Hdirect as [Hl Hm].
  apply String.eqb_neq in Hall.
  unfold try_except, dispatch_search.
  rewrite Hl, Hm, Hg, Hall. cbn. auto 6.
Qed.

Lemma invalid_provider_is_400_witness :
  result_of (run (search_suggestions Demo.python Demo.app Fixture.bad_provider)
                 Demo.empty_world)
  = inr (mkResponse
           (ErrorBody
              (Literal "Invalid provider. Must be one of: local, mapbox, google, all"))
           400)
  /\ In (Log WARNING (InvalidProvider "bing"))
        (trace_of (run (search_suggestions Demo.python Demo.app Fixture.bad_provider)
                       Demo.empty_world)).
Proof.
  destruct (invalid_provider_is_400 Demo.World Demo.python Demo.app Fixture.bad_provider
              Demo.empty_world eq_refl eq_refl eq_refl ltac:(discriminate))
    as [Hr [_ [_ Hlog]]].
  split; [exact Hr | exact Hlog].
Defined.

(** X4. A direct request whose provider is there makes exactly one
    call, to that provider, with the query, the limit capped at 5 and,
    for the vendors only, the converted location.  What the provider
    returns is projected place by place, in order and without any
    cut; what it raises becomes a 500 with its text, logged at
    ERROR. *)
Theorem direct_search_asks_named_provider :
  forall (W : Type) (py : Py.interpreter) (app : App W) (args : Args) (w : W) (n : Z)
         (p : SearchProvider W),
    truthy (args_get "query" args) = true ->
    conversion_error py args = None ->
    requested_limit py args = Some n ->
    is_direct (requested_provider py args) = true ->
    named_provider app (requested_provider py args) = Some p ->
    let provider := requested_provider py args in
    let query := value (args_get "query" args) in
    let la := location_for provider (float_value py (args_get "latitude" args)) in
    let lo := location_for provider (float_value py (args_get "longitude" args)) in
    let r := run (search_suggestions py app args) w in
    calls (trace_of r)
    = [CallSearch (provider_name provider) query (Z.min n 5) la lo]
    /\ world_of r = snd (search p query (Z.min n 5) la lo w)
    /\ (forall results w',
          search p query (Z.min n 5) la lo w = (inr results, w') ->
          result_of r
          = inr (mkResponse (SuggestionsBody (map suggestion_of results)) 200))
    /\ (forall e w',
          search p query (Z.min n 5) la lo w = (inl e, w') ->
          result_of r = inr (mkResponse (ErrorBody (Str e)) 500)
          /\ In (Log ERROR (ErrorDuringSearch e)) (trace_of r)).
Proof.
  intros W py app args w n p Hq Hconv Hlimit Hdirect Hnamed
         provider query la lo r.
  subst r provider query la lo.
  rewrite (search_suggestions_dispatches py app args n w Hq Hconv Hlimit).
  unfold named_provider in Hnamed.
  unfold dispatch_search, location_for, provider_name.
  destruct (direct_cases _ Hdirect) as [E | [E | E]];
    rewrite E in *; cbn in Hnamed; cbn [String.eqb Ascii.eqb Bool.eqb];
    rewrite Hnamed, call_and_answer;
    match goal with
    | |- context [search p ?q ?l ?a ?b w] =>
        destruct (search p q l a b w) as [[e | results] w1]
    end;
    unfold trace_of, world_of, result_of; cbn;
    (split; [reflexivity|]); (split; [reflexivity|]);
    split; intros ? ? [= ];
    subst; auto 6.
Qed.

Lemma direct_search_asks_named_provider_witness :
  calls (trace_of (run (search_suggestions Demo.python Demo.app Fixture.mapbox_near)
                       Demo.empty_world))
  = [CallSearch Mapbox "Coffee" 5
       (Some (Py.Ffinite false 407128 (-4)))
       (Some (Py.Ffinite true 740060 (-4)))]
  /\ result_of (run (search_suggestions Demo.python Demo.app Fixture.mapbox_near)
                    Demo.empty_world)
     = inr (mkResponse
              (SuggestionsBody (map suggestion_of [Demo.m1; Demo.m2])) 200).
Proof.
  destruct (direct_search_asks_named_provider
              Demo.World Demo.python Demo.app Fixture.mapbox_near Demo.empty_world 9
              (Demo.vendor Demo.mapbox_catalogue)
              eq_refl eq_refl eq_refl eq_refl eq_refl)
    as [Hc [_ [Hok _]]].
  split; [exact Hc | exact (Hok _ _ eq_refl)].
Defined.

(** X5. With [provider=all] the handler makes one call, to the
    orchestrator, with the capped limit and the converted location,
    and does not shield itself from it: what the orchestrator returns
    is projected in order, what it raises is answered with a 500. *)
Theorem orchestrated_request_run :
  forall (W : Type) (py : Py.interpreter) (app : App W) (args : Args) (w : W) (n : Z),
    truthy (args_get "query" args) = true ->
    conversion_error py args = None ->
    requested_limit py args = Some n ->
    requested_provider py args = "all" ->
    let query := value (args_get "query" args) in
    let la := float_value py (args_get "latitude" args) in
    let lo := float_value py (args_get "longitude" args) in
    let r := run (search_suggestions py app args) w in
    calls (trace_of r) = [CallOrchestratorSearch query (Z.min n 5) la lo]
    /\ world_of r = snd (search_orchestrator app query (Z.min n 5) la lo w)
    /\ (forall results w',
          search_orchestrator app query (Z.min n 5) la lo w = (inr results, w') ->
          result_of r
          = inr (mkResponse (SuggestionsBody (map suggestion_of results)) 200))
    /\ (forall e w',
          search_orchestrator app query (Z.min n 5) la lo w = (inl e, w') ->
          result_of r = inr (mkResponse (ErrorBody (Str e)) 500)
          /\ In (Log ERROR (ErrorDuringSearch e)) (trace_of r)).
Proof.
  intros W py app args w n Hq Hconv Hlimit Hall query la lo r.
  subst r query la lo.
  rewrite (search_suggestions_dispatches py app args n w Hq Hconv Hlimit), Hall.
  rewrite dispatch_all_run.
  destruct (search_orchestrator app (value (args_get "query" args))
              (Z.min n 5) (float_value py (args_get "latitude" args))
              (float_value py (args_get "longitude" args)) w)
    as [[e | results] w1];
    unfold trace_of, world_of, result_of; cbn;
    (split; [reflexivity|]); (split; [reflexivity|]);
    split; intros ? ? [= ]; subst; auto 6.
Qed.

Lemma orchestrated_request_run_witness :
  calls (trace_of (run (search_suggestions Demo.python Fixture.app_orchestrator_broken
                          Fixture.coffee_all_3) Demo.empty_world))
  = [CallOrchestratorSearch "Coffee" 3 None (Some (Py.Ffinite false 15 (-1)))]
  /\ result_of (run (search_suggestions Demo.python Fixture.app_orchestrator_broken
                       Fixture.coffee_all_3) Demo.empty_world)
     = inr (mkResponse
              (ErrorBody (Str (OtherError "RuntimeError" "pool is closed"))) 500).
Proof.
  destruct (orchestrated_request_run
              Demo.World Demo.python Fixture.app_orchestrator_broken Fixture.coffee_all_3
              Demo.empty_world 3 eq_refl eq_refl eq_refl eq_refl)
    as [Hc [_ [_ Hbad]]].
  split; [exact Hc | exact (proj1 (Hbad _ _ eq_refl))].
Defined.

(** X6. Whatever the request and the collaborators, a suggestions run
    makes at most one call, that call is a search, and it asks for at
    most 5 results: for the requested limit capped at 5. *)
Theorem suggestions_ask_once_for_at_most_five :
  forall (W : Type) (py : Py.interpreter) (app : App W) (args : Args) (w : W) (c : Call),
    In c (calls (trace_of (run (search_suggestions py app args) w))) ->
    calls (trace_of (run (search_suggestions py app args) w)) = [c]
    /\ exists n,
        requested_limit py args = Some n
        /\ call_limit c = Some (Z.min n 5)
        /\ Z.min n 5 <= 5.
Proof.
  intros W py app args w c.
  destruct (suggestions_shape py app args w)
    as [[resp [logs [-> [Hc _]]]] | [n [pre [c' [op [Hn [Hpre [Hl ->]]]]]]]].
  - unfold trace_of. cbn. rewrite Hc. intros [].
  - destruct (op w) as [[e | results] w']; unfold trace_of; cbn;
      rewrite calls_app, Hpre; cbn; intros [<- | []];
      (split; [reflexivity|]); exists n; repeat split; auto; lia.
Qed.

Lemma suggestions_ask_once_for_at_most_five_witness :
  calls (trace_of (run (search_suggestions Demo.python Demo.app Fixture.mapbox_near)
                       Demo.empty_world))
  = [CallSearch Mapbox "Coffee" 5
       (Some (Py.Ffinite false 407128 (-4)))
       (Some (Py.Ffinite true 740060 (-4)))]
  /\ requested_limit Demo.python Fixture.mapbox_near = Some 9.
Proof.
  destruct (suggestions_ask_once_for_at_most_five
              Demo.World Demo.python Demo.app Fixture.mapbox_near Demo.empty_world
              (CallSearch Mapbox "Coffee" 5
                 (Some (Py.Ffinite false 407128 (-4)))
                 (Some (Py.Ffinite true 740060 (-4))))
              (or_introl eq_refl))
    as [Hc _].
  split; [exact Hc | reflexivity].
Defined.

(** X7. A suggestions request answered with 400 or 503 has called
    nothing and has left the world as it was. *)
Theorem rejected_suggestions_touch_nothing :
  forall (W : Type) (py : Py.interpreter) (app : App W) (args : Args) (w : W) (resp : Response),
    result_of (run (search_suggestions py app args) w) = inr resp ->
    status resp = 400 \/ status resp = 503 ->
    calls (trace_of (run (search_suggestions py app args) w)) = []
    /\ world_of (run (search_suggestions py app args) w) = w.
Proof.
  intros W py app args w resp.
  destruct (suggestions_shape py app args w)
    as [[resp' [logs [-> [Hc _]]]] | [n [pre [c [op [_ [_ [_ ->]]]]]]]].
  - intros _ _. split; [exact Hc | reflexivity].
  - destruct (op w) as [[e | results] w']; unfold result_of; cbn;
      intros [= <-]; cbn; intros [H | H]; discriminate.
Qed.

Lemma rejected_suggestions_touch_nothing_witness :
  calls (trace_of (run (search_suggestions Demo.python Demo.app_bare Fixture.mapbox_near)
                       Sample.stocked)) = []
  /\ world_of (run (search_suggestions Demo.python Demo.app_bare Fixture.mapbox_near)
                   Sample.stocked) = Sample.stocked.
Proof.
  exact (rejected_suggestions_touch_nothing
           Demo.World Demo.python Demo.app_bare Fixture.mapbox_near Sample.stocked
           (mkResponse
              (ErrorBody (Literal "Mapbox search provider is not available")) 503)
           eq_refl (or_intror eq_refl)).
Defined.

(** X8. The provider name is read without regard to case: two
    requests that agree on everything but the case of [provider] run
    alike, to the same response, world and trace. *)
Theorem provider_name_ignores_case :
  forall (W : Type) (py : Py.interpreter) (app : App W) (a1 a2 : Args) (st : State W),
    requested_provider py a1 = requested_provider py a2 ->
    args_get "query" a1 = args_get "query" a2 ->
    args_get "limit" a1 = args_get "limit" a2 ->
    args_get "latitude" a1 = args_get "latitude" a2 ->
    args_get "longitude" a1 = args_get "longitude" a2 ->
    search_suggestions py app a1 st = search_suggestions py app a2 st.
Proof.
  intros W py app a1 a2 st Hp Hq Hl Hla Hlo.
  unfold requested_provider in Hp.
  unfold search_suggestions, search_suggestions_body.
  rewrite Hp, Hq, Hl, Hla, Hlo. reflexivity.
Qed.

Lemma provider_name_ignores_case_witness :
  search_suggestions Demo.python Demo.app Fixture.mapbox_near (Demo.empty_world, [])
  = search_suggestions Demo.python Demo.app Fixture.mapbox_near_upper (Demo.empty_world, []).
Proof.
  exact (provider_name_ignores_case Demo.World Demo.python Demo.app
           Fixture.mapbox_near Fixture.mapbox_near_upper (Demo.empty_world, [])
           eq_refl eq_refl eq_refl eq_refl eq_refl).
Defined.

(** ** The shape of a details run *)

Section DetailRuns.

Context {W : Type} (app : App W).

Lemma truthy_value (v : option string) :
  truthy v = true -> v = Some (value v) /\ value v <> "".
Proof.
  unfold truthy, value. destruct v as [s|]; [|discriminate].
  intros H. split; [reflexivity|].
  apply String.eqb_neq. destruct (String.eqb s ""); [discriminate|reflexivity].
Qed.

(** A parameter is missing or empty: line 134. *)
Lemma missing_parameter_run (args : Args) (w : W) :
  truthy (args_get "place_id" args) = false
  \/ truthy (args_get "source" args) = false ->
  run (get_place_details app args) w
  = (inr (mkResponse
            (ErrorBody (Literal "place_id and source parameters are required"))
            400),
     (w, [])).
Proof.
  intros H. unfold run, get_place_details, try_except.
  destruct H as [-> | ->]; cbn; [reflexivity|].
  rewrite orb_true_r. reflexivity.
Qed.

(** Both parameters are there: the dispatch of lines 140-161 runs. *)
Lemma details_dispatches (args : Args) (w : W) :
  truthy (args_get "place_id" args) = true ->
  truthy (args_get "source" args) = true ->
  run (get_place_details app args) w
  = try_except
      (resolve_place app (value (args_get "place_id" args))
                     (value (args_get "source" args)))
      (fun e =>
         log ERROR (ErrorGettingDetails e) ;;;
         ret (jsonify_status (ErrorBody (Str e)) 500))
      (w, []).
Proof.
  intros Hid Hsrc. unfold run, get_place_details, try_except.
  rewrite Hid, Hsrc. reflexivity.
Qed.

(** The vendor raises: the request ends there, with a 500. *)
Lemma vendor_failure_run (args : Args) (pn : ProviderName)
    (p : SearchProvider W) (e : exn) (w w1 : W) :
  truthy (args_get "place_id" args) = true ->
  truthy (args_get "source" args) = true ->
  remote_provider app (value (args_get "source" args)) = Some (pn, p) ->
  provider_get_place_details p (value (args_get "place_id" args)) w
  = (inl e, w1) ->
  run (get_place_details app args) w
  = (inr (mkResponse (ErrorBody (Str e)) 500),
     (w1, [Invoke (CallGetPlaceDetails pn (value (args_get "place_id" args)));
           Log ERROR (ErrorGettingDetails e)])).
Proof.
  intros Hid Hsrc Hslot Hres.
  rewrite (details_dispatches args w Hid Hsrc).
  unfold remote_provider in Hslot.
  unfold try_except, resolve_place.
  destruct (String.eqb (value (args_get "source" args)) "local") eqn:Hloc.
  { apply String.eqb_eq in Hloc. rewrite Hloc in Hslot. discriminate. }
  destruct (String.eqb (value (args_get "source" args)) "mapbox").
  - destruct (mapbox_provider app) as [p'|]; [|discriminate].
    injection Hslot as <- <-.
    unfold bind, invoke. cbn. rewrite Hres. reflexivity.
  - destruct (String.eqb (value (args_get "source" args)) "google");
      [|discriminate].
    destruct (google_places_provider app) as [p'|]; [|discriminate].
    injection Hslot as <- <-.
    unfold bind, invoke. cbn. rewrite Hres. reflexivity.
Qed.

(** A source that is none of the three names: line 158. *)
Lemma invalid_source_run (args : Args) (w : W) :
  truthy (args_get "place_id" args) = true ->
  truthy (args_get "source" args) = true ->
  is_direct (value (args_get "source" args)) = false ->
  run (get_place_details app args) w
  = (inr (mkResponse
            (ErrorBody
               (Literal "Invalid source. Must be one of: local, mapbox, google"))
            400),
     (w, [])).
Proof.
  intros Hid Hsrc Hdirect.
  rewrite (details_dispatches args w Hid Hsrc).
  unfold is_direct in Hdirect.
  apply orb_false_elim in Hdirect as [Hdirect Hg].
  apply orb_false_elim in Hdirect as [Hl Hm].
  unfold try_except, resolve_place. rewrite Hl, Hm, Hg. reflexivity.
Qed.

(** The named provider is absent: 503, and not even a log record. *)
Lemma absent_source_run (args : Args) (w : W) :
  truthy (args_get "place_id" args) = true ->
  truthy (args_get "source" args) = true ->
  is_direct (value (args_get "source" args)) = true ->
  named_provider app (value (args_get "source" args)) = None ->
  run (get_place_details app args) w
  = (inr (mkResponse
            (ErrorBody
               (Literal (unavailable_text (value (args_get "source" args)))))
            503),
     (w, [])).
Proof.
  intros Hid Hsrc Hdirect Habsent.
  rewrite (details_dispatches args w Hid Hsrc).
  unfold named_provider in Habsent.
  unfold try_except, resolve_place, unavailable_text.
  destruct (direct_cases _ Hdirect) as [E | [E | E]];
    rewrite E in *; cbn in Habsent; cbn; rewrite Habsent; reflexivity.
Qed.

(** A direct name whose provider is there is either [local] with the
    local provider, or a vendor slot. *)
Lemma present_source_cases (src : string) (p : SearchProvider W) :
  is_direct src = true ->
  named_provider app src = Some p ->
  (src = "local" /\ whoosh_provider app = Some p)
  \/ exists pn, remote_provider app src = Some (pn, p).
Proof.
  intros Hdirect Hnamed.
  unfold named_provider in Hnamed. unfold remote_provider.
  destruct (direct_cases _ Hdirect) as [-> | [-> | ->]]; cbn in *.
  - left. split; [reflexivity | exact Hnamed].
  - right. rewrite Hnamed. cbn. eauto.
  - right. rewrite Hnamed. cbn. eauto.
Qed.

End DetailRuns.

(** Every run of [get_place_details]: turned down without a trace, one
    local search, a vendor that raises, or a vendor that resolves the
    place, followed by the writes. *)
Lemma details_shape {W : Type} (app : App W) (args : Args) (w : W) :
  (exists resp,
      run (get_place_details app args) w = (inr resp, (w, []))
      /\ (status resp = 400 \/ status resp = 503)
      /\ is_place (body resp) = false)
  \/ (exists pid lp,
         run (get_place_details app args) w
         = match search lp pid 1 None None w with
           | (inl e, w') =>
               (inr (mkResponse (ErrorBody (Str e)) 500),
                (w', [Invoke (CallSearch Local pid 1 None None);
                      Log ERROR (ErrorGettingDetails e)]))
           | (inr [], w') =>
               (inr (error "Place not found" 404),
                (w', [Invoke (CallSearch Local pid 1 None None)]))
           | (inr (place :: _), w') =>
               (inr (mkResponse (PlaceBody (place_json place)) 200),
                (w', [Invoke (CallSearch Local pid 1 None None)]))
           end)
  \/ (exists pid pn e w1,
         run (get_place_details app args) w
         = (inr (mkResponse (ErrorBody (Str e)) 500),
            (w1, [Invoke (CallGetPlaceDetails pn pid);
                  Log ERROR (ErrorGettingDetails e)])))
  \/ (exists pid pn p place w1,
         pid = value (args_get "place_id" args)
         /\ remote_provider app (value (args_get "source" args)) = Some (pn, p)
         /\ provider_get_place_details p pid w = (inr place, w1)
         /\ run (get_place_details app args) w
            = (inr (mkResponse (PlaceBody (place_json place)) 200),
               match whoosh_provider app with
               | Some lp =>
                   snd (save_to_local_database app lp place
                          (w1, [Invoke (CallGetPlaceDetails pn pid)]))
               | None => (w1, [Invoke (CallGetPlaceDetails pn pid)])
               end)).
Proof.
  destruct (truthy (args_get "place_id" args)) eqn:Hid.
  2:{ left. rewrite (missing_parameter_run app args w (or_introl Hid)).
      eexists. split; [reflexivity|]. cbn. auto. }
  destruct (truthy (args_get "source" args)) eqn:Hsrc.
  2:{ left. rewrite (missing_parameter_run app args w (or_intror Hsrc)).
      eexists. split; [reflexivity|]. cbn. auto. }
  destruct (is_direct (value (args_get "source" args))) eqn:Hdirect.
  2:{ left. rewrite (invalid_source_run app args w Hid Hsrc Hdirect).
      eexists. split; [reflexivity|]. cbn. auto. }
  destruct (named_provider app (value (args_get "source" args)))
    as [p|] eqn:Hnamed.
  2:{ left. rewrite (absent_source_run app args w Hid Hsrc Hdirect Hnamed).
      eexists. split; [reflexivity|]. cbn. auto. }
  destruct (truthy_value _ Hid) as [Hpid Hne].
  destruct (truthy_value _ Hsrc) as [Hs _].
  destruct (present_source_cases app _ p Hdirect Hnamed)
    as [[Hlocal Hlp] | [pn Hslot]].
  - right. left. rewrite Hlocal in Hs.
    exists (value (args_get "place_id" args)), p.
    apply local_details_run; assumption.
  - right. right.
    destruct (provider_get_place_details p (value (args_get "place_id" args)) w)
      as [[e | place] w1] eqn:Hres.
    + left. exists (value (args_get "place_id" args)), pn, e, w1.
      apply (vendor_failure_run app args pn p e w w1); assumption.
    + right. exists (value (args_get "place_id" args)), pn, p, place, w1.
      split; [reflexivity|]. split; [exact Hslot|]. split; [exact Hres|].
      apply (remote_details_run app args
               (value (args_get "place_id" args))
               (value (args_get "source" args)) pn p place w w1);
        assumption.
Qed.

(** X9. [get_place_details] always answers: no exception leaves it,
    the status is one of 200, 400, 404, 500 and 503, and the status is
    200 exactly when the body is a place. *)
Theorem get_place_details_status_codes :
  forall (W : Type) (app : App W) (args : Args) (w : W),
  exists resp,
    result_of (run (get_place_details app args) w) = inr resp
    /\ details_status (status resp) = true
    /\ (status resp = 200 <-> is_place (body resp) = true).
Proof.
  intros W app args w.
  destruct (details_shape app args w)
    as [[resp [-> [Hs Hb]]]
       | [[pid [lp ->]]
         | [[pid [pn [e [w1 ->]]]]
           | [pid [pn [p [place [w1 [Hpid [Hslot [Hres ->]]]]]]]]]]].
  - exists resp. split; [reflexivity|]. split.
    + unfold details_status. destruct Hs as [-> | ->]; reflexivity.
    + rewrite Hb. split; [|discriminate].
      intros H200. destruct Hs as [H | H]; rewrite H in H200; discriminate.
  - destruct (search lp pid 1 None None w) as [[e | [| place rest]] w'];
      eexists; (split; [reflexivity|]); cbn; split; try reflexivity;
      split; (reflexivity || discriminate).
  - eexists. split; [reflexivity|]. cbn. split; [reflexivity|].
    split; discriminate.
  - eexists. split; [reflexivity|]. cbn. split; [reflexivity|].
    split; reflexivity.
Qed.

(** X10. A details request answered with 400 or 503 has called
    nothing, has logged nothing, and has left the world as it was. *)
Theorem rejected_details_touch_nothing :
  forall (W : Type) (app : App W) (args : Args) (w : W) (resp : Response),
    result_of (run (get_place_details app args) w) = inr resp ->
    status resp = 400 \/ status resp = 503 ->
    trace_of (run (get_place_details app args) w) = []
    /\ world_of (run (get_place_details app args) w) = w.
Proof.
  intros W app args w resp.
  destruct (details_shape app args w)
    as [[resp' [-> _]]
       | [[pid [lp ->]]
         | [[pid [pn [e [w1 ->]]]]
           | [pid [pn [p [place [w1 [Hpid [Hslot [Hres ->]]]]]]]]]]].
  - intros _ _. split; reflexivity.
  - destruct (search lp pid 1 None None w) as [[e | [| place rest]] w'];
      unfold result_of; cbn; intros [= <-]; cbn; intros [H | H]; discriminate.
  - unfold result_of; cbn; intros [= <-]; cbn; intros [H | H]; discriminate.
  - unfold result_of; cbn; intros [= <-]; cbn; intros [H | H]; discriminate.
Qed.

Lemma rejected_details_touch_nothing_witness :
  trace_of (run (get_place_details Demo.app Fixture.upper_source) Sample.stocked)
  = []
  /\ world_of (run (get_place_details Demo.app Fixture.upper_source)
                   Sample.stocked) = Sample.stocked.
Proof.
  exact (rejected_details_touch_nothing
           Demo.World Demo.app Fixture.upper_source Sample.stocked
           (mkResponse
              (ErrorBody
                 (Literal "Invalid source. Must be one of: local, mapbox, google"))
              400)
           eq_refl (or_introl eq_refl)).
Defined.

(** X11. A details request without [place_id] or without [source],
    or with either of them empty, is answered with the 400 "place_id
    and source parameters are required" before anything else
    happens. *)
Theorem missing_details_parameter_is_400 :
  forall (W : Type) (app : App W) (args : Args) (w : W),
    truthy (args_get "place_id" args) = false
    \/ truthy (args_get "source" args) = false ->
    run (get_place_details app args) w
    = (inr (mkResponse
              (ErrorBody (Literal "place_id and source parameters are required"))
              400),
       (w, [])).
Proof.
  intros W app args w H. apply missing_parameter_run. exact H.
Qed.

Lemma missing_details_parameter_is_400_witness :
  run (get_place_details Demo.app Fixture.no_source) Demo.empty_world
  = (inr (mkResponse
            (ErrorBody (Literal "place_id and source parameters are required"))
            400),
     (Demo.empty_world, [])).
Proof.
  exact (missing_details_parameter_is_400 Demo.World Demo.app Fixture.no_source
           Demo.empty_world (or_intror eq_refl)).
Defined.

(** X12. The source of a details request is compared as it is
    written, with no folding of case: a source that is not exactly
    [local], [mapbox] or [google] is answered with the 400 "Invalid
    source", and nothing is called. *)
Theorem invalid_source_is_400 :
  forall (W : Type) (app : App W) (args : Args) (src : string) (w : W),
    truthy (args_get "place_id" args) = true ->
    args_get "source" args = Some src ->
    src <> "" ->
    src <> "local" -> src <> "mapbox" -> src <> "google" ->
    run (get_place_details app args) w
    = (inr (mkResponse
              (ErrorBody
                 (Literal "Invalid source. Must be one of: local, mapbox, google"))
              400),
       (w, [])).
Proof.
  intros W app args src w Hid Hsrc Hne Hl Hm Hg.
  apply invalid_source_run; [exact Hid | |]; rewrite Hsrc; cbn.
  - apply String.eqb_neq in Hne. rewrite Hne. reflexivity.
  - unfold is_direct.
    apply String.eqb_neq in Hl, Hm, Hg. rewrite Hl, Hm, Hg. reflexivity.
Qed.

Lemma invalid_source_is_400_witness :
  Py.lower Demo.python "LOCAL" = "local"
  /\ run (get_place_details Demo.app Fixture.upper_source) Sample.stocked
     = (inr (mkResponse
               (ErrorBody
                  (Literal "Invalid source. Must be one of: local, mapbox, google"))
               400),
        (Sample.stocked, [])).
Proof.
  split; [reflexivity|].
  exact (invalid_source_is_400 Demo.World Demo.app Fixture.upper_source "LOCAL"
           Sample.stocked eq_refl eq_refl
           ltac:(discriminate) ltac:(discriminate) ltac:(discriminate)
           ltac:(discriminate)).
Defined.

(** X13. When the vendor raises while resolving the place, whatever
    it raises, a [NotFoundError] included, the answer is a 500 with
    the text of the exception: the only call is the resolution, no
    write is tried, and the failure is logged at ERROR. *)
Theorem vendor_failure_is_500_without_writes :
  forall (W : Type) (app : App W) (args : Args) (pn : ProviderName)
         (p : SearchProvider W) (e : exn) (w w1 : W),
    truthy (args_get "place_id" args) = true ->
    truthy (args_get "source" args) = true ->
    remote_provider app (value (args_get "source" args)) = Some (pn, p) ->
    provider_get_place_details p (value (args_get "place_id" args)) w
    = (inl e, w1) ->
    let r := run (get_place_details app args) w in
    result_of r = inr (mkResponse (ErrorBody (Str e)) 500)
    /\ calls (trace_of r)
       = [CallGetPlaceDetails pn (value (args_get "place_id" args))]
    /\ world_of r = w1
    /\ In (Log ERROR (ErrorGettingDetails e)) (trace_of r).
Proof.
  intros W app args pn p e w w1 Hid Hsrc Hslot Hres r. subst r.
  rewrite (vendor_failure_run app args pn p e w w1 Hid Hsrc Hslot Hres).
  unfold result_of, trace_of, world_of. cbn. auto 6.
Qed.

Lemma vendor_failure_is_500_without_writes_witness :
  result_of (run (get_place_details Demo.app Fixture.details_unknown)
                 Demo.empty_world)
  = inr (mkResponse (ErrorBody (Str (NotFoundError "mbx.999"))) 500)
  /\ calls (trace_of (run (get_place_details Demo.app Fixture.details_unknown)
                          Demo.empty_world))
     = [CallGetPlaceDetails Mapbox "mbx.999"].
Proof.
  destruct (vendor_failure_is_500_without_writes
              Demo.World Demo.app Fixture.details_unknown Mapbox
              (Demo.vendor Demo.mapbox_catalogue) (NotFoundError "mbx.999")
              Demo.empty_world Demo.empty_world
              eq_refl eq_refl eq_refl eq_refl)
    as [Hr [Hc _]].
  split; [exact Hr | exact Hc].
Defined.

(** X14. Without a local provider a vendor-resolved place is returned
    and neither write is tried: the guard of line 164 also keeps the
    durable store from being written. *)
Theorem details_without_index_skip_both_writes :
  forall (W : Type) (app : App W) (args : Args) (pid src : string)
         (pn : ProviderName) (p : SearchProvider W) (place : Place) (w w1 : W),
    args_get "place_id" args = Some pid ->
    args_get "source" args = Some src ->
    pid <> "" ->
    remote_provider app src = Some (pn, p) ->
    provider_get_place_details p pid w = (inr place, w1) ->
    whoosh_provider app = None ->
    let r := run (get_place_details app args) w in
    result_of r = inr (mkResponse (PlaceBody (place_json place)) 200)
    /\ trace_of r = [Invoke (CallGetPlaceDetails pn pid)]
    /\ world_of r = w1.
Proof.
  intros W app args pid src pn p place w w1 Hid Hsrc Hne Hslot Hres Hnone r.
  subst r.
  rewrite (no_index_no_writes app args pid src pn p place w w1
             Hid Hsrc Hne Hslot Hres Hnone).
  repeat split.
Qed.

Lemma details_without_index_skip_both_writes_witness :
  result_of (run (get_place_details Fixture.app_vendors_only Sample.details_g1)
                 Demo.empty_world)
  = inr (mkResponse (PlaceBody (place_json Demo.g1)) 200)
  /\ world_of (run (get_place_details Fixture.app_vendors_only Sample.details_g1)
                   Demo.empty_world)
     = Demo.empty_world.
Proof.
  destruct (details_without_index_skip_both_writes
              Demo.World Fixture.app_vendors_only Sample.details_g1
              "g-1" "google" Google (Demo.vendor Demo.google_catalogue)
              Demo.g1 Demo.empty_world Demo.empty_world
              eq_refl eq_refl ltac:(discriminate) eq_refl eq_refl eq_refl)
    as [Hr [_ Hw]].
  split; [exact Hr | exact Hw].
Defined.

(** X15. Whatever the request and the collaborators, the writes of a
    details run come only after a vendor has resolved the place, with
    the local provider present.  The calls are then the resolution,
    the index write, and, exactly when the index write returned, the
    construction of the store, followed, exactly when that returned,
    by the store write; each write carries the resolved place, and
    the answer is that place with status 200. *)
Theorem writes_follow_vendor_resolution :
  forall (W : Type) (app : App W) (args : Args) (w : W) (c : Call),
    In c (calls (trace_of (run (get_place_details app args) w))) ->
    is_write c = true ->
    exists pn p lp place w1,
      remote_provider app (value (args_get "source" args)) = Some (pn, p)
      /\ provider_get_place_details p (value (args_get "place_id" args)) w
         = (inr place, w1)
      /\ whoosh_provider app = Some lp
      /\ calls (trace_of (run (get_place_details app args) w))
         = CallGetPlaceDetails pn (value (args_get "place_id" args))
             :: CallSavePlace place
             :: match save_place lp place w1 with
                | (inl _, _) => []
                | (inr _, w2) =>
                    CallPlaceStorage
                      :: match PlaceStorage app w2 with
                         | (inl _, _) => []
                         | (inr _, _) => [CallStorageSavePlace place]
                         end
                end
      /\ result_of (run (get_place_details app args) w)
         = inr (mkResponse (PlaceBody (place_json place)) 200).
Proof.
  intros W app args w c.
  destruct (details_shape app args w)
    as [[resp [-> _]]
       | [[pid [lp ->]]
         | [[pid [pn [e [w1 ->]]]]
           | [pid [pn [p [place [w1 [Hpid [Hslot [Hres ->]]]]]]]]]]].
  - intros [].
  - destruct (search lp pid 1 None None w) as [[e | [| place rest]] w'];
      unfold trace_of; cbn; intros [<- | []]; discriminate.
  - unfold trace_of; cbn. intros [<- | []]; discriminate.
  - subst pid. unfold trace_of, result_of.
    destruct (whoosh_provider app) as [lp|].
    2:{ cbn. intros [<- | []]; discriminate. }
    rewrite save_to_local_database_run. intros _ _.
    exists pn, p, lp, place, w1.
    split; [exact Hslot|]. split; [exact Hres|]. split; [reflexivity|].
    split; [|reflexivity].
    destruct (save_place lp place w1) as [[e | u] w2]; [reflexivity|].
    destruct (PlaceStorage app w2) as [[e | u'] w3]; [reflexivity|].
    destruct (storage_save_place app place w3) as [[e | id] w4]; reflexivity.
Qed.

Lemma writes_follow_vendor_resolution_witness :
  exists pn p lp place w1,
    remote_provider Demo.app_read_only
      (value (args_get "source" Sample.details_mbx1)) = Some (pn, p)
    /\ provider_get_place_details p
         (value (args_get "place_id" Sample.details_mbx1)) Demo.empty_world
       = (inr place, w1)
    /\ whoosh_provider Demo.app_read_only = Some lp
    /\ calls (trace_of Sample.run_read_only)
       = CallGetPlaceDetails pn (value (args_get "place_id" Sample.details_mbx1))
           :: CallSavePlace place
           :: match save_place lp place w1 with
              | (inl _, _) => []
              | (inr _, w2) =>
                  CallPlaceStorage
                    :: match PlaceStorage Demo.app_read_only w2 with
                       | (inl _, _) => []
                       | (inr _, _) => [CallStorageSavePlace place]
                       end
              end
    /\ result_of Sample.run_read_only
       = inr (mkResponse (PlaceBody (place_json place)) 200).
Proof.
  exact (writes_follow_vendor_resolution
           Demo.World Demo.app_read_only Sample.details_mbx1
           Demo.empty_world (CallSavePlace Demo.m1)
           (or_intror (or_introl eq_refl)) eq_refl).
Defined.

(** X16. When the local search behind a [source=local] request
    raises, the answer is a 500 with the text of the exception, logged
    at ERROR; the world is the one the search left. *)
Theorem local_search_failure_is_500 :
  forall (W : Type) (app : App W) (args : Args) (pid : string)
         (lp : SearchProvider W) (e : exn) (w w' : W),
    args_get "place_id" args = Some pid ->
    args_get "source" args = Some "local" ->
    pid <> "" ->
    whoosh_provider app = Some lp ->
    search lp pid 1 None None w = (inl e, w') ->
    run (get_place_details app args) w
    = (inr (mkResponse (ErrorBody (Str e)) 500),
       (w', [Invoke (CallSearch Local pid 1 None None);
             Log ERROR (ErrorGettingDetails e)])).
Proof.
  intros W app args pid lp e w w' Hid Hsrc Hne Hlp Hs.
  rewrite (local_details_run app args pid lp w Hid Hsrc Hne Hlp), Hs.
  reflexivity.
Qed.


Lemma local_search_failure_is_500_witness :
  run (get_place_details app_broken_index Fixture.details_local_mbx1)
      Demo.empty_world
  = (inr (mkResponse
            (ErrorBody (Str (OtherError "IndexError" "index is corrupt"))) 500),
     (Demo.empty_world,
      [Invoke (CallSearch Local "mbx.1" 1 None None);
       Log ERROR (ErrorGettingDetails
                    (OtherError "IndexError" "index is corrupt"))])).
Proof.
  exact (local_search_failure_is_500
           Demo.World app_broken_index Fixture.details_local_mbx1 "mbx.1"
           broken_index (OtherError "IndexError" "index is corrupt")
           Demo.empty_world Demo.empty_world
           eq_refl eq_refl ltac:(discriminate) eq_refl eq_refl).
Defined.

(** ** Start-up *)

Example index_directory_default :
  index_directory (Boot.platform Boot.only_google) "/tmp" = "/tmp/whoosh_index".
Proof. reflexivity. Qed.

(** X17. Once the index directory exists, the three providers are
    constructed one after the other, each exactly once and whatever
    became of the ones before: a constructor that raises leaves its
    slot empty and an ERROR record, and start-up goes on to hand the
    three slots to the orchestrator. *)
Theorem startup_isolates_provider_failures :
  forall (W : Type) (pf : Platform W) (w w0 w1 w2 w3 w4 w5 : W)
         (tmp : string) (u : unit)
         (r1 r2 r3 : exn + SearchProvider W)
         (orchestrator : OrchestratorSearch W),
    tempfile_gettempdir pf w = (inr tmp, w0) ->
    os_makedirs pf (index_directory pf tmp) w0 = (inr u, w1) ->
    new_WhooshSearchProvider pf (index_directory pf tmp) w1 = (r1, w2) ->
    new_MapboxSearchProvider pf (os_getenv pf "MAPBOX_ACCESS_TOKEN") w2
    = (r2, w3) ->
    new_GooglePlacesSearchProvider pf (os_getenv pf "GOOGLE_PLACES_API_KEY") w3
    = (r3, w4) ->
    new_SearchOrchestrator pf (slot r1) (slot r2) (slot r3) w4
    = (inr orchestrator, w5) ->
    fst (startup pf w)
    = inr (mkApp (slot r1) (slot r2) (slot r3) orchestrator
                 (new_PlaceStorage pf) (PlaceStorage_save_place pf))
    /\ fst (snd (startup pf w)) = w5
    /\ init_calls (snd (snd (startup pf w)))
       = [CallGettempdir;
          CallMakedirs (index_directory pf tmp);
          CallWhooshSearchProvider (index_directory pf tmp);
          CallMapboxSearchProvider (os_getenv pf "MAPBOX_ACCESS_TOKEN");
          CallGooglePlacesSearchProvider (os_getenv pf "GOOGLE_PLACES_API_KEY");
          CallSearchOrchestrator (is_some (slot r1)) (is_some (slot r2))
                                 (is_some (slot r3))]
    /\ (forall e, r1 = inl e ->
                  In (InitLog ERROR (ProviderInitFailed Local e))
                     (snd (snd (startup pf w))))
    /\ (forall e, r2 = inl e ->
                  In (InitLog ERROR (ProviderInitFailed Mapbox e))
                     (snd (snd (startup pf w))))
    /\ (forall e, r3 = inl e ->
                  In (InitLog ERROR (ProviderInitFailed Google e))
                     (snd (snd (startup pf w)))).
Proof.
  intros W pf w w0 w1 w2 w3 w4 w5 tmp u r1 r2 r3 orchestrator
         Htmp Hdir H1 H2 H3 Horch.
  unfold startup, try_construct. rewrite Htmp, Hdir. cbn.
  rewrite H1.
  destruct r1 as [e1 | p1]; cbn; rewrite H2;
    destruct r2 as [e2 | p2]; cbn; rewrite H3;
    destruct r3 as [e3 | p3]; cbn in *; rewrite Horch; cbn;
    repeat split; try reflexivity; intros e [= <-]; auto 15.
Qed.

Lemma startup_isolates_provider_failures_witness :
  fst (startup (Boot.platform Boot.only_google) Demo.empty_world)
  = inr (mkApp (Some Demo.local_index) None
               (Some (Demo.vendor Demo.google_catalogue))
               (SearchOrchestrator_search (Some Demo.local_index) None
                  (Some (Demo.vendor Demo.google_catalogue)))
               Demo.storage_ok Demo.storage_save)
  /\ In (InitLog ERROR
           (ProviderInitFailed Mapbox
              (OtherError "ValueError" "access token is required")))
        (snd (snd (startup (Boot.platform Boot.only_google) Demo.empty_world))).
Proof.
  destruct (startup_isolates_provider_failures
              Demo.World (Boot.platform Boot.only_google)
              Demo.empty_world Demo.empty_world Demo.empty_world
              Demo.empty_world Demo.empty_world Demo.empty_world
              Demo.empty_world "/tmp" tt
              (inr Demo.local_index)
              (inl (OtherError "ValueError" "access token is required"))
              (inr (Demo.vendor Demo.google_catalogue))
              (SearchOrchestrator_search (Some Demo.local_index) None
                 (Some (Demo.vendor Demo.google_catalogue)))
              eq_refl eq_refl eq_refl eq_refl eq_refl eq_refl)
    as [Happ [_ [_ [_ [Hlog _]]]]].
  split; [exact Happ | exact (Hlog _ eq_refl)].
Defined.

(** X18. The index directory comes first: when it cannot be created,
    start-up fails with that exception and no provider is
    constructed. *)
Theorem startup_needs_index_directory :
  forall (W : Type) (pf : Platform W) (w w0 w1 : W) (tmp : string) (e : exn),
    tempfile_gettempdir pf w = (inr tmp, w0) ->
    os_makedirs pf (index_directory pf tmp) w0 = (inl e, w1) ->
    fst (startup pf w) = inl e
    /\ init_calls (snd (snd (startup pf w)))
       = [CallGettempdir; CallMakedirs (index_directory pf tmp)].
Proof.
  intros W pf w w0 w1 tmp e Htmp Hdir.
  unfold startup. rewrite Htmp, Hdir. split; reflexivity.
Qed.

Lemma startup_needs_index_directory_witness :
  fst (startup platform_read_only Demo.empty_world)
  = inl (OtherError "PermissionError" "/tmp/whoosh_index")
  /\ init_calls (snd (snd (startup platform_read_only Demo.empty_world)))
     = [CallGettempdir; CallMakedirs "/tmp/whoosh_index"].
Proof.
  exact (startup_needs_index_directory
           Demo.World platform_read_only Demo.empty_world Demo.empty_world
           Demo.empty_world "/tmp"
           (OtherError "PermissionError" "/tmp/whoosh_index")
           eq_refl eq_refl).
Defined.

(** A direct suggestions request for a provider that is not there. *)
Lemma absent_provider_run {W : Type} (py : Py.interpreter) (app : App W) (args : Args) (w : W) :
  truthy (args_get "query" args) = true ->
  conversion_error py args = None ->
  is_direct (requested_provider py args) = true ->
  named_provider app (requested_provider py args) = None ->
  result_of (run (search_suggestions py app args) w)
  = inr (mkResponse
           (ErrorBody (Literal (unavailable_text (requested_provider py args))))
           503)
  /\ calls (trace_of (run (search_suggestions py app args) w)) = []
  /\ world_of (run (search_suggestions py app args) w) = w.
Proof.
  intros Hq Hconv Hdirect Habsent.
  destruct (search_suggestions_parsed py app args Hq Hconv)
    as [n [la [lo [_ Hrun]]]].
  rewrite Hrun. clear Hrun.
  unfold named_provider in Habsent.
  destruct (direct_cases _ Hdirect) as [E | [E | E]];
    rewrite E in *; cbn in Habsent; unfold try_except, dispatch_search; cbn;
    rewrite Habsent; cbn; auto.
Qed.

(** The vendor slots of the app that start-up builds are what the
    constructors returned, each in the world it was run in. *)
Lemma startup_vendor_slot {W : Type} (pf : Platform W) (w : W) (app : App W)
    (provider : string) :
  fst (startup pf w) = inr app ->
  provider = "mapbox" \/ provider = "google" ->
  exists x r x',
    vendor_constructor pf provider x = (r, x')
    /\ named_provider app provider = slot r.
Proof.
  intros Hstart Hprov.
  unfold startup, try_construct in Hstart.
  destruct (tempfile_gettempdir pf w) as [[e | tmp] w0]; [discriminate|].
  destruct (os_makedirs pf (index_directory pf tmp) w0) as [[e | u] w1];
    [discriminate|].
  cbn in Hstart.
  destruct (new_WhooshSearchProvider pf (index_directory pf tmp) w1)
    as [r1 w2].
  destruct r1 as [e1 | p1]; cbn in Hstart;
    destruct (new_MapboxSearchProvider pf (os_getenv pf "MAPBOX_ACCESS_TOKEN") w2)
      as [r2 w3] eqn:H2;
    destruct r2 as [e2 | p2]; cbn in Hstart;
    destruct (new_GooglePlacesSearchProvider pf
                (os_getenv pf "GOOGLE_PLACES_API_KEY") w3)
      as [r3 w4] eqn:H3;
    destruct r3 as [e3 | p3]; cbn in Hstart;
    match type of Hstart with
    | context [new_SearchOrchestrator pf ?a ?b ?c ?x] =>
        destruct (new_SearchOrchestrator pf a b c x) as [[eo | orch] w5]
    end; cbn in Hstart; try discriminate;
    injection Hstart as <-;
    destruct Hprov as [-> | ->]; unfold vendor_constructor, named_provider; cbn;
    solve [ do 3 eexists; split; [exact H2 | reflexivity]
          | do 3 eexists; split; [exact H3 | reflexivity] ].
Qed.

(** X19. A vendor whose constructor raises, as it does without its
    credential, does not keep the application from starting; the app
    that start-up returns then answers every well-formed direct
    request for that vendor with status 503, calling nothing. *)
Theorem failed_construction_answers_503 :
  forall (W : Type) (py : Py.interpreter) (pf : Platform W) (w w' : W) (app : App W) (args : Args),
    fst (startup pf w) = inr app ->
    requested_provider py args = "mapbox" \/ requested_provider py args = "google" ->
    (forall x, exists e x',
        vendor_constructor pf (requested_provider py args) x = (inl e, x')) ->
    truthy (args_get "query" args) = true ->
    conversion_error py args = None ->
    let r := run (search_suggestions py app args) w' in
    result_of r
    = inr (mkResponse
             (ErrorBody (Literal (unavailable_text (requested_provider py args))))
             503)
    /\ calls (trace_of r) = []
    /\ world_of r = w'.
Proof.
  intros W py pf w w' app args Hstart Hprov Hfail Hq Hconv r. subst r.
  destruct (startup_vendor_slot pf w app (requested_provider py args) Hstart Hprov)
    as [x [r [x' [Hctor Hslot]]]].
  destruct (Hfail x) as [e [x'' He]].
  rewrite He in Hctor. injection Hctor as <- _.
  apply (absent_provider_run py); try assumption.
  unfold is_direct. destruct Hprov as [-> | ->]; reflexivity.
Qed.

Lemma failed_construction_answers_503_witness :
  fst (startup (Boot.platform Boot.only_google) Demo.empty_world)
  = inr app_only_google
  /\ result_of (run (search_suggestions Demo.python app_only_google Fixture.mapbox_near)
                    Sample.stocked)
     = inr (mkResponse
              (ErrorBody (Literal "Mapbox search provider is not available")) 503).
Proof.
  split; [reflexivity|].
  refine (proj1 (failed_construction_answers_503
                   Demo.World Demo.python (Boot.platform Boot.only_google)
                   Demo.empty_world Sample.stocked app_only_google
                   Fixture.mapbox_near eq_refl (or_introl eq_refl) _
                   eq_refl eq_refl)).
  intros x. exists (OtherError "ValueError" "access token is required"), x.
  reflexivity.
Defined.

(** X20. Only the capped limit matters: two requests that agree on
    everything but the limit, and whose limits are the same once
    capped at 5, run alike, to the same response, world and trace.  So
    every limit of 5 or more, and no limit at all, come to the
    same. *)
Theorem limits_with_same_cap_run_alike :
  forall (W : Type) (py : Py.interpreter) (app : App W) (a1 a2 : Args) (n1 n2 : Z) (st : State W),
    requested_limit py a1 = Some n1 ->
    requested_limit py a2 = Some n2 ->
    Z.min n1 5 = Z.min n2 5 ->
    args_get "query" a1 = args_get "query" a2 ->
    args_get "provider" a1 = args_get "provider" a2 ->
    args_get "latitude" a1 = args_get "latitude" a2 ->
    args_get "longitude" a1 = args_get "longitude" a2 ->
    search_suggestions py app a1 st = search_suggestions py app a2 st.
Proof.
  intros W py app a1 a2 n1 n2 st H1 H2 Hcap Hq Hp Hla Hlo.
  unfold requested_limit in H1, H2.
  unfold search_suggestions, search_suggestions_body, int_arg.
  rewrite Hq, Hp, Hla, Hlo.
  destruct (args_get "limit" a1) as [s1|];
    [rewrite H1 | injection H1 as <-];
    (destruct (args_get "limit" a2) as [s2|];
      [rewrite H2 | injection H2 as <-]);
    unfold try_except, bind, ret; cbn; rewrite ?Hcap; try reflexivity;
    cbn in Hcap; rewrite <- ?Hcap; reflexivity.
Qed.

Lemma limits_with_same_cap_run_alike_witness :
  search_suggestions Demo.python Demo.app coffee_no_limit (Demo.empty_world, [])
  = search_suggestions Demo.python Demo.app coffee_limit_50 (Demo.empty_world, []).
Proof.
  exact (limits_with_same_cap_run_alike
           Demo.World Demo.python Demo.app coffee_no_limit coffee_limit_50 5 50
           (Demo.empty_world, [])
           eq_refl eq_refl eq_refl eq_refl eq_refl eq_refl eq_refl).
Defined.
